(** * NaturewatchCameraServer: the daylight power-save scheduler

    A shallow embedding of [helpers/powersave.py] and the properties of its
    retry wrapper, its time windows and its day cycle.

    The program is embedded twice, line by line the same, over two models
    of the library calls it makes.

    The first model is the plain one.
    - Instants are whole seconds.  The system clock is POSIX time; the
      local zone has one UTC offset for the whole run, so [astimezone()]
      attaches that offset to every value it is applied to (a day on which
      the zone changes its offset is outside the model).
    - Only [time.sleep] moves the clock, by exactly the amount asked for;
      logging, the HTTP request and [systemctl] take no time.
    - The outside is part of the world: the answers the successive GETs
      will meet and the exit codes the successive [systemctl] runs will
      give.  [subprocess.run] itself always comes back with an exit code.
    - Everything the program does to the outside is appended to a trace,
      each entry stamped with the clock reading at which it happened.
    - Every exception of the model derives from Python's [Exception];
      process-level interruptions (signals) are outside the model.
    - The loop of [main] never ends; [main fuel] is its first [fuel] passes.
    It carries the properties that rest on the control flow of the program
    alone: what [retry] does after a failed attempt, what a fetched window
    is made of, what the ordering check changes, which steps a pass
    skips.

    The second model, [Host], carries the properties that depend on how
    the library and the outside behave.  There
    - the zone has a rule: its UTC offset depends on the instant, and a
      wall reading is resolved as CPython 3.11 resolves it;
    - the GET and [systemctl] take the time the world says, and
      [systemctl] may fail to start;
    - [time.sleep] refuses a length that is negative, not a number,
      infinite, or longer than the platform's longest sleep;
    - a JSON number may be infinite or not a number, and
      [datetime.fromtimestamp] accepts the instants the platform says.
    What [Host] keeps of the plain model: whole seconds; a sleep that
    ends exactly when asked; logging that takes no time; a system clock
    that stays well inside the years datetime can hold; exceptions that
    all derive from [Exception]. *)

From Stdlib Require Import ZArith String List Bool Lia Floats.
Import ListNotations.
Set Warnings "-register-all".
Local Open Scope string_scope.
Local Open Scope list_scope.
Local Open Scope Z_scope.

(* ================================================================== *)
(** * Dates and times (the part of [datetime] the program uses)        *)
(* ================================================================== *)

Module Calendar.

(** A [datetime.date], held as its proleptic Gregorian ordinal
    ([date.toordinal()]): 0001-01-01 is day 1. *)
Definition date := Z.

Definition is_leap (y : Z) : bool :=
  ((y mod 4 =? 0) && negb (y mod 100 =? 0)) || (y mod 400 =? 0).

Definition days_before_year (y : Z) : Z :=
  let p := y - 1 in p * 365 + p / 4 - p / 100 + p / 400.

Definition days_in_month (y m : Z) : Z :=
  if m =? 2 then (if is_leap y then 29 else 28)
  else if (m =? 4) || (m =? 6) || (m =? 9) || (m =? 11) then 30 else 31.

Definition days_before_month (y m : Z) : Z :=
  fold_right Z.add 0
    (map (fun k => days_in_month y (Z.of_nat k)) (seq 1 (Z.to_nat (m - 1)))).

(** [datetime.date(y, m, d).toordinal()] *)
Definition ymd2ord (y m d : Z) : date :=
  days_before_year y + days_before_month y m + d.

Definition EPOCH_ORDINAL : date := 719163.      (* 1970-01-01 *)
Definition SECONDS_PER_DAY : Z := 86400.

(** A [datetime.time] without its microsecond field. *)
Record time := { hour : Z; minute : Z; second : Z }.

(** [datetime.time(hour=h)] *)
Definition time_at_hour (h : Z) : time :=
  {| hour := h; minute := 0; second := 0 |}.

Definition seconds_of_time (t : time) : Z :=
  hour t * 3600 + minute t * 60 + second t.

(** A naive [datetime.datetime]: a wall-clock reading. *)
Record naive := { date_of : date; time_of : time }.

(** [datetime.datetime.combine(date=d, time=t)] *)
Definition combine (d : date) (t : time) : naive :=
  {| date_of := d; time_of := t |}.

(** Seconds from 1970-01-01T00:00:00 to the wall-clock reading. *)
Definition wall_seconds (n : naive) : Z :=
  (date_of n - EPOCH_ORDINAL) * SECONDS_PER_DAY + seconds_of_time (time_of n).

(** The wall-clock reading that lies [s] seconds after 1970-01-01T00:00:00. *)
Definition naive_of_wall_seconds (s : Z) : naive :=
  let r := s mod SECONDS_PER_DAY in
  {| date_of := EPOCH_ORDINAL + s / SECONDS_PER_DAY;
     time_of := {| hour := r / 3600; minute := (r mod 3600) / 60;
                   second := r mod 60 |} |}.

(** A timezone-aware [datetime.datetime] whose tzinfo is a fixed offset. *)
Record aware := { wall : naive; utcoffset : Z }.

(** [dt.date()] *)
Definition date_part (a : aware) : date := date_of (wall a).

(** [dt.timestamp()]: the POSIX time of an aware value. *)
Definition timestamp (a : aware) : Z := wall_seconds (wall a) - utcoffset a.

(** [a < b] on aware values compares the instants. *)
Definition ltb (a b : aware) : bool := timestamp a <? timestamp b.

(** [(a - b).total_seconds()] on aware values. *)
Definition sub_seconds (a b : aware) : Z := timestamp a - timestamp b.

(** [dt + datetime.timedelta(days=k)]: wall-clock arithmetic, tzinfo kept. *)
Definition add_days (a : aware) (k : Z) : aware :=
  {| wall := {| date_of := date_of (wall a) + k; time_of := time_of (wall a) |};
     utcoffset := utcoffset a |}.

(** [dt.replace(year=d.year, month=d.month, day=d.day)]: the three date
    fields are overwritten with those of [d], the rest is kept. *)
Definition replace_date (a : aware) (d : date) : aware :=
  {| wall := {| date_of := d; time_of := time_of (wall a) |};
     utcoffset := utcoffset a |}.

End Calendar.

Import Calendar.

(* ================================================================== *)
(** * Data of the program                                              *)
(* ================================================================== *)

Definition LAT_LONG_FILE_PATH : string := "/home/pi/lat_long.txt".
Definition NATUREWATCH_SERVER_SERVICE_NAME : string := "python.naturewatch.service".

Record Location := { lat : float; long : float }.

(** The times of events for the day on which the value was created. *)
Record TimeInfo := { sunrise : aware; sunset : aware; next_1am : aware }.

(** The exceptions the program can meet. *)
Inductive exn :=
| RequestException            (* [requests.get]: no connection, timeout, ... *)
| AssertionError
| JSONDecodeError
| KeyError (key : string)
| TypeError
| ValueError
| OtherException (name : string).

(** The query part of the URL of line 46 that varies. *)
Record url := { url_lat : float; url_lng : float; url_date : date }.

(** A decoded JSON value, as far as the program looks into it. *)
Inductive json :=
| JObject (members : list (string * json))
| JScalar (as_float : option Z)
    (* a string or number; [as_float] is what [float()] makes of it,
       [None] when [float()] raises ValueError *)
| JOther.                     (* null, a list, ... *)

(** An HTTP response; [content] is [None] when the bytes are not JSON. *)
Record response := { status_code : Z; content : option json }.

Inductive loglevel := INFO | WARNING | ERROR.

Inductive message :=
| MsgGetting (u : url)
| MsgFailedCall (i : Z) (delay_s : Z) (e : exn)
| MsgSunInfo (sun_info : option TimeInfo)
| MsgUsingDefault (sun_info : TimeInfo)
| MsgUnexpectedOrdering (sun_info : TimeInfo)
| MsgSleepingUntil (t : aware)
| MsgRunning (args : list string)
| MsgExited (returncode : Z).

Inductive event :=
| Log (level : loglevel) (m : message)
| HttpGet (u : url)
| Sleep (secs : Z)
| Run (args : list string)
| Call.                       (* one invocation of an opaque operation *)

(** The program's world: the clock, the zone, what the outside will
    answer, and what has happened so far. *)
Record World := {
  clock : Z;
  tz_offset : Z;
  inbox : list (option response);
    (* what the successive GETs meet: [None] when the request itself
       fails; once the list is used up every request fails *)
  exit_codes : list Z;
    (* exit codes of the successive systemctl runs, 0 once used up *)
  trace : list (Z * event)
}.

Definition record (e : event) (w : World) : World :=
  {| clock := clock w; tz_offset := tz_offset w; inbox := inbox w;
     exit_codes := exit_codes w; trace := trace w ++ [(clock w, e)] |}.

Definition advance (secs : Z) (w : World) : World :=
  {| clock := clock w + secs; tz_offset := tz_offset w; inbox := inbox w;
     exit_codes := exit_codes w; trace := trace w |}.

Definition with_inbox (l : list (option response)) (w : World) : World :=
  {| clock := clock w; tz_offset := tz_offset w; inbox := l;
     exit_codes := exit_codes w; trace := trace w |}.

Definition with_exit_codes (l : list Z) (w : World) : World :=
  {| clock := clock w; tz_offset := tz_offset w; inbox := inbox w;
     exit_codes := l; trace := trace w |}.

(* ================================================================== *)
(** * Computations: state passing with exceptions                      *)
(* ================================================================== *)

Inductive outcome (A : Type) :=
| Returned (a : A) (w : World)
| Raised (e : exn) (w : World).
Arguments Returned {A} a w.
Arguments Raised {A} e w.

Definition M (A : Type) : Type := World -> outcome A.

Definition ret {A} (a : A) : M A := fun w => Returned a w.

Definition bind {A B} (c : M A) (k : A -> M B) : M B :=
  fun w => match c w with
           | Returned a w' => k a w'
           | Raised e w' => Raised e w'
           end.

Definition raise {A} (e : exn) : M A := fun w => Raised e w.

(** [try: body  except Exception as e: handler e] *)
Definition try_except {A} (body : M A) (handler : exn -> M A) : M A :=
  fun w => match body w with
           | Returned a w' => Returned a w'
           | Raised e w' => handler e w'
           end.

Declare Scope py_scope.
Delimit Scope py_scope with py.
Notation "x <- c ;; k" := (bind c (fun x => k))
  (at level 61, c at next level, right associativity) : py_scope.
Notation "c ;; k" := (bind c (fun _ => k))
  (at level 61, right associativity) : py_scope.
Local Open Scope py_scope.

Definition world_of {A} (o : outcome A) : World :=
  match o with Returned _ w => w | Raised _ w => w end.

(* ================================================================== *)
(** * Library calls                                                    *)
(* ================================================================== *)

(** [logging.log(level, msg)] *)
Definition logging (level : loglevel) (m : message) : M unit :=
  fun w => Returned tt (record (Log level m) w).

(** [time.sleep(secs)]; a negative length is a ValueError. *)
Definition time_sleep (secs : Z) : M unit :=
  fun w => if secs <? 0 then Raised ValueError w
           else Returned tt (advance secs (record (Sleep secs) w)).

(** [datetime.datetime.now()] *)
Definition datetime_now : M naive :=
  fun w => Returned (naive_of_wall_seconds (clock w + tz_offset w)) w.

(** [datetime.datetime.fromtimestamp(ts)] *)
Definition fromtimestamp (ts : Z) : M naive :=
  fun w => Returned (naive_of_wall_seconds (ts + tz_offset w)) w.

(** [dt.astimezone()] on a naive value: it is read as local time. *)
Definition astimezone (n : naive) : M aware :=
  fun w => Returned {| wall := n; utcoffset := tz_offset w |} w.

(** [requests.get(url, timeout=60)] *)
Definition requests_get (u : url) : M response :=
  fun w =>
    let w' := with_inbox (tl (inbox w)) (record (HttpGet u) w) in
    match inbox w with
    | Some r :: _ => Returned r w'
    | _ => Raised RequestException w'
    end.

(** [assert b] *)
Definition assert_ (b : bool) : M unit :=
  if b then ret tt else raise AssertionError.

(** [json.loads(response.content)] *)
Definition json_loads (c : option json) : M json :=
  match c with
  | Some j => ret j
  | None => raise JSONDecodeError
  end.

Fixpoint lookup (key : string) (members : list (string * json)) : option json :=
  match members with
  | [] => None
  | (k, v) :: rest => if String.eqb k key then Some v else lookup key rest
  end.

(** [j[key]] for a string key *)
Definition getitem (j : json) (key : string) : M json :=
  match j with
  | JObject members =>
      match lookup key members with
      | Some v => ret v
      | None => raise (KeyError key)
      end
  | _ => raise TypeError
  end.

(** [float(j)] *)
Definition float_ (j : json) : M Z :=
  match j with
  | JScalar (Some z) => ret z
  | JScalar None => raise ValueError
  | _ => raise TypeError
  end.

(** [subprocess.run(args, stdout=subprocess.PIPE).returncode] *)
Definition subprocess_run (args : list string) : M Z :=
  fun w =>
    Returned (hd 0 (exit_codes w))
             (with_exit_codes (tl (exit_codes w)) (record (Run args) w)).

(** [range(start, stop)] *)
Definition range (start stop : Z) : list Z :=
  map (fun k => start + Z.of_nat k) (seq 0 (Z.to_nat (stop - start))).

(* ================================================================== *)
(** * The program                                                      *)
(* ================================================================== *)

(** [datetime.datetime.now().astimezone()] *)
Definition now_astimezone : M aware :=
  n <- datetime_now ;; astimezone n.

(** [TimeInfo.get_from_web] (lines 42-70) *)
Definition get_from_web (location : Location) : M TimeInfo :=
  now <- now_astimezone ;;
  let today := date_part now in
  let u := {| url_lat := lat location; url_lng := long location; url_date := today |} in
  logging INFO (MsgGetting u) ;;
  response <- requests_get u ;;
  assert_ (status_code response =? 200) ;;
  body <- json_loads (content response) ;;
  results <- getitem body "results" ;;
  sunrise_s <- (x <- getitem results "sunrise" ;; float_ x) ;;
  sunrise <- (n <- fromtimestamp sunrise_s ;; astimezone n) ;;
  sunset_s <- (x <- getitem results "sunset" ;; float_ x) ;;
  sunset <- (n <- fromtimestamp sunset_s ;; astimezone n) ;;
  (* the date returned by the API is a day old, but the time is correct *)
  let sunrise := replace_date sunrise today in
  let sunset := replace_date sunset today in
  one_am <- astimezone (combine today (time_at_hour 1)) ;;
  ret {| sunrise := sunrise; sunset := sunset; next_1am := add_days one_am 1 |}.

(** [TimeInfo.default] (lines 72-89) *)
Definition default : M TimeInfo :=
  now <- now_astimezone ;;
  let today := date_part now in
  (* assume 6am until 9pm sunup *)
  six_am <- astimezone (combine today (time_at_hour 6)) ;;
  nine_pm <- astimezone (combine today (time_at_hour 21)) ;;
  one_am <- astimezone (combine today (time_at_hour 1)) ;;
  ret {| sunrise := six_am; sunset := nine_pm; next_1am := add_days one_am 1 |}.

(** The loop of [retry] (lines 102-108) over the indices still to come. *)
Fixpoint retry_loop {T} (indices : list Z) (delay_s : Z) (f : M T) : M (option T) :=
  match indices with
  | [] => ret None
  | i :: rest =>
      r <- try_except
             (v <- f ;; ret (Some v))
             (fun e =>
                logging WARNING (MsgFailedCall i delay_s e) ;;
                time_sleep delay_s ;;
                ret None) ;;
      match r with
      | Some v => ret (Some v)            (* [return f()] *)
      | None => retry_loop rest delay_s f (* next [i] *)
      end
  end.

(** [retry] (lines 97-108) *)
Definition retry {T} (times : Z) (delay_s : Z) (f : M T) : M (option T) :=
  retry_loop (range 0 times) delay_s f.

(** [sleep_until] (lines 111-114) *)
Definition sleep_until (t : aware) : M unit :=
  now <- now_astimezone ;;
  let delta := sub_seconds t now in
  logging INFO (MsgSleepingUntil t) ;;
  time_sleep delta.

(** [set_service_state] (lines 117-128) *)
Definition set_service_state (start : bool) : M unit :=
  let args := ["systemctl"; if start then "start" else "stop";
               NATUREWATCH_SERVER_SERVICE_NAME] in
  logging INFO (MsgRunning args) ;;
  returncode <- subprocess_run args ;;
  logging (if returncode =? 0 then INFO else ERROR) (MsgExited returncode).

(** Lines 138-142 of [main]: the window of this iteration. *)
Definition obtain_sun_info (location : Location) : M TimeInfo :=
  sun_info <- retry 5 120 (get_from_web location) ;;
  logging INFO (MsgSunInfo sun_info) ;;
  match sun_info with
  | None =>
      sun_info <- default ;;
      logging WARNING (MsgUsingDefault sun_info) ;;
      ret sun_info
  | Some sun_info => ret sun_info
  end.

(** Lines 144-147 of [main]: the ordering check. *)
Definition check_ordering (sun_info : TimeInfo) : M unit :=
  if negb (ltb (sunrise sun_info) (sunset sun_info)
           && ltb (sunset sun_info) (next_1am sun_info))
  then logging ERROR (MsgUnexpectedOrdering sun_info)
  else ret tt.

(** Lines 149-159 of [main]: the three steps of the day. *)
Definition day_cycle (sun_info : TimeInfo) : M unit :=
  now <- now_astimezone ;;
  (if ltb now (sunrise sun_info)
   then set_service_state false ;; sleep_until (sunrise sun_info)
   else ret tt) ;;
  now <- now_astimezone ;;
  (if ltb now (sunset sun_info)
   then set_service_state true ;; sleep_until (sunset sun_info)
   else ret tt) ;;
  (* wait until the next day before fetching the next sunrise/set information *)
  now <- now_astimezone ;;
  (if ltb now (next_1am sun_info)
   then (* make sure shutdown if this program is started after sunset *)
        set_service_state false ;; sleep_until (next_1am sun_info)
   else ret tt).

(** One pass through the body of [while True] (lines 138-159). *)
Definition main_iteration (location : Location) : M unit :=
  sun_info <- obtain_sun_info location ;;
  check_ordering sun_info ;;
  day_cycle sun_info.

(** The loop of [main] (lines 137-159), cut off after [fuel] passes; the
    location is the one read at line 134. *)
Fixpoint main (fuel : nat) (location : Location) : M unit :=
  match fuel with
  | O => ret tt
  | S fuel' => main_iteration location ;; main fuel' location
  end.

(* ================================================================== *)
(** * What a run shows                                                 *)
(* ================================================================== *)

(** The entries a run from [w] to [w'] has added to the trace. *)
Definition events_since (w w' : World) : list (Z * event) :=
  skipn (length (trace w)) (trace w').

(** The entries that act on the outside, without the log lines. *)
Inductive action :=
| Command (start : bool)      (* systemctl start / stop of the service *)
| SleepFor (secs : Z)
| Fetch (day : date).

Definition action_of (e : event) : option action :=
  match e with
  | Run args => Some (Command (String.eqb (nth 1 args "") "start"))
  | Sleep secs => Some (SleepFor secs)
  | HttpGet u => Some (Fetch (url_date u))
  | Log _ _ | Call => None
  end.

Fixpoint actions (evs : list (Z * event)) : list (Z * action) :=
  match evs with
  | [] => []
  | (t, e) :: rest =>
      match action_of e with
      | Some a => (t, a) :: actions rest
      | None => actions rest
      end
  end.

Fixpoint commands (acts : list (Z * action)) : list bool :=
  match acts with
  | [] => []
  | (_, Command start) :: rest => start :: commands rest
  | _ :: rest => commands rest
  end.

Fixpoint sleeps (acts : list (Z * action)) : list Z :=
  match acts with
  | [] => []
  | (_, SleepFor secs) :: rest => secs :: sleeps rest
  | _ :: rest => sleeps rest
  end.

Fixpoint fetch_times (acts : list (Z * action)) : list Z :=
  match acts with
  | [] => []
  | (t, Fetch _) :: rest => t :: fetch_times rest
  | _ :: rest => fetch_times rest
  end.

(** The invocations of an opaque operation among the entries. *)
Fixpoint invocations (evs : list (Z * event)) : nat :=
  match evs with
  | [] => O
  | (_, Call) :: rest => S (invocations rest)
  | _ :: rest => invocations rest
  end.

(** The attempt indices that [retry] has logged as failed, in order. *)
Fixpoint failed_calls (evs : list (Z * event)) : list Z :=
  match evs with
  | [] => []
  | (_, Log WARNING (MsgFailedCall i _ _)) :: rest => i :: failed_calls rest
  | _ :: rest => failed_calls rest
  end.

(** An operation seen from outside: each invocation leaves one [Call]
    entry in the trace in place of whatever the operation wrote there;
    its result, its exception and the rest of the world are its own. *)
Definition seal (w w' : World) : World :=
  {| clock := clock w'; tz_offset := tz_offset w'; inbox := inbox w';
     exit_codes := exit_codes w'; trace := trace w ++ [(clock w, Call)] |}.

Definition opaque {T} (op : M T) : M T :=
  fun w => match op w with
           | Returned v w' => Returned v (seal w w')
           | Raised e w' => Raised e (seal w w')
           end.

(** Two worlds that differ at most in their traces. *)
Definition same_outside (w1 w2 : World) : Prop :=
  clock w1 = clock w2 /\ tz_offset w1 = tz_offset w2
  /\ inbox w1 = inbox w2 /\ exit_codes w1 = exit_codes w2.

(** Two outcomes with the same result or exception, in such worlds. *)
Definition agree {A} (o1 o2 : outcome A) : Prop :=
  match o1, o2 with
  | Returned a1 w1, Returned a2 w2 => a1 = a2 /\ same_outside w1 w2
  | Raised e1 w1, Raised e2 w2 => e1 = e2 /\ same_outside w1 w2
  | _, _ => False
  end.

(** A computation that does not read the trace. *)
Definition trace_blind {A} (c : M A) : Prop :=
  forall w1 w2, same_outside w1 w2 -> agree (c w1) (c w2).

(** The local reading of the clock, as [now_astimezone] returns it. *)
Definition local_now (w : World) : aware :=
  {| wall := naive_of_wall_seconds (clock w + tz_offset w);
     utcoffset := tz_offset w |}.

(** The local calendar day of the world. *)
Definition today (w : World) : date := date_part (local_now w).

(** [h] o'clock sharp on day [d], in the zone with offset [off]. *)
Definition at_hour (d : date) (h : Z) (off : Z) : aware :=
  {| wall := {| date_of := d; time_of := {| hour := h; minute := 0; second := 0 |} |};
     utcoffset := off |}.

(** The ordering invariant of a window. *)
Definition well_ordered (ti : TimeInfo) : Prop :=
  timestamp (sunrise ti) < timestamp (sunset ti)
  /\ timestamp (sunset ti) < timestamp (next_1am ti).

(** What lines 49-55 read off a response: the two epoch values, or the
    exception met first. *)
Definition read_epochs (r : response) : exn + (Z * Z) :=
  if negb (status_code r =? 200) then inl AssertionError else
  match content r with
  | None => inl JSONDecodeError
  | Some (JObject members) =>
      match lookup "results" members with
      | None => inl (KeyError "results")
      | Some (JObject results) =>
          match lookup "sunrise" results with
          | None => inl (KeyError "sunrise")
          | Some (JScalar (Some a)) =>
              match lookup "sunset" results with
              | None => inl (KeyError "sunset")
              | Some (JScalar (Some b)) => inr (a, b)
              | Some (JScalar None) => inl ValueError
              | Some _ => inl TypeError
              end
          | Some (JScalar None) => inl ValueError
          | Some _ => inl TypeError
          end
      | Some _ => inl TypeError
      end
  | Some _ => inl TypeError
  end.

(** An attempt of the fetch that cannot succeed: the request fails, or
    the response is not one with the two epoch values. *)
Definition fetch_fails (o : option response) : bool :=
  match o with
  | None => true
  | Some r => match read_epochs r with inl _ => true | inr _ => false end
  end.

(** The fixed daylight approximation for day [d]. *)
Definition fixed_window (d : date) (off : Z) : TimeInfo :=
  {| sunrise := at_hour d 6 off;
     sunset := at_hour d 21 off;
     next_1am := at_hour (d + 1) 1 off |}.

(** The steps of the day as the specification words them: an instant
    that has passed is skipped; otherwise the command is given, then the
    program sleeps until the instant.  The result is the list of actions
    with the times at which they happen, and the time afterwards. *)
Definition spec_step (start : bool) (t : aware) (now : Z) : list (Z * action) * Z :=
  if timestamp t <=? now then ([], now)
  else ([(now, Command start); (now, SleepFor (timestamp t - now))], timestamp t).

Definition spec_day (ti : TimeInfo) (now : Z) : list (Z * action) * Z :=
  let '(a1, t1) := spec_step false (sunrise ti) now in
  let '(a2, t2) := spec_step true (sunset ti) t1 in
  let '(a3, t3) := spec_step false (next_1am ti) t2 in
  (a1 ++ a2 ++ a3, t3).

(* ================================================================== *)
(** * Worlds the pieces of the program lead to *)
(* ================================================================== *)

(** The window [get_from_web] builds from the two epoch values. *)
Definition fetched_window (a b : Z) (d : date) (off : Z) : TimeInfo :=
  {| sunrise := replace_date {| wall := naive_of_wall_seconds (a + off); utcoffset := off |} d;
     sunset := replace_date {| wall := naive_of_wall_seconds (b + off); utcoffset := off |} d;
     next_1am := at_hour (d + 1) 1 off |}.

(** The request of line 46 as issued from world [w]. *)
Definition request_of (location : Location) (w : World) : url :=
  {| url_lat := lat location; url_lng := long location; url_date := today w |}.

(** The world after the log line and the GET of one attempt. *)
Definition after_get (location : Location) (w : World) : World :=
  with_inbox (tl (inbox w))
    (record (HttpGet (request_of location w))
       (record (Log INFO (MsgGetting (request_of location w))) w)).

(** The world after the handler of lines 105-107 has run from [w]. *)
Definition after_failure (delay_s : Z) (i : Z) (e : exn) (w : World) : World :=
  advance delay_s
    (record (Sleep delay_s) (record (Log WARNING (MsgFailedCall i delay_s e)) w)).

Definition systemctl_args (start : bool) : list string :=
  ["systemctl"; if start then "start" else "stop"; NATUREWATCH_SERVER_SERVICE_NAME].

(** What [set_service_state] adds to the trace at time [c]. *)
Definition command_events (start : bool) (c : Z) (codes : list Z) : list (Z * event) :=
  [(c, Log INFO (MsgRunning (systemctl_args start)));
   (c, Run (systemctl_args start));
   (c, Log (if hd 0 codes =? 0 then INFO else ERROR) (MsgExited (hd 0 codes)))].

(** What [sleep_until t] adds to the trace at time [c]. *)
Definition sleep_events (t : aware) (c : Z) : list (Z * event) :=
  [(c, Log INFO (MsgSleepingUntil t)); (c, Sleep (timestamp t - c))].

(** The world after one of the three guarded steps of [day_cycle]. *)
Definition step_world (start : bool) (t : aware) (w : World) : World :=
  if clock w <? timestamp t then
    {| clock := timestamp t; tz_offset := tz_offset w; inbox := inbox w;
       exit_codes := tl (exit_codes w);
       trace := trace w ++ command_events start (clock w) (exit_codes w)
                        ++ sleep_events t (clock w) |}
  else w.

(* ================================================================== *)
(** * Shapes of a trace *)
(* ================================================================== *)

(** What a run of failed attempts of an opaque operation leaves in the
    trace: per attempt the invocation, the warning with the attempt's
    index, and the sleep. *)
Inductive failed_rounds (delay_s : Z) : list Z -> list (Z * event) -> Prop :=
| failed_rounds_nil : failed_rounds delay_s [] []
| failed_rounds_cons i indices t t' e evs :
    failed_rounds delay_s indices evs ->
    failed_rounds delay_s (i :: indices)
      ((t, Call) :: (t', Log WARNING (MsgFailedCall i delay_s e))
                 :: (t', Sleep delay_s) :: evs).

(** From [w] to [w']: the clock has not gone back, the zone is the same,
    and the trace has only grown, by entries stamped no earlier than the
    clock of [w] whose events satisfy [Q]. *)
Definition extends (Q : event -> Prop) (w w' : World) : Prop :=
  clock w <= clock w'
  /\ tz_offset w' = tz_offset w
  /\ exists evs,
       trace w' = trace w ++ evs
       /\ Forall (fun p => clock w <= fst p /\ Q (snd p)) evs.

Definition anything (e : event) : Prop := True.

(** Neither a service command nor anything but log lines, requests and sleeps. *)
Definition no_command (e : event) : Prop :=
  match e with Run _ => False | _ => True end.

(* ================================================================== *)
(** * Concrete worlds used as instances *)
(* ================================================================== *)

Definition greenwich : Location := {| lat := 51.5%float; long := 0%float |}.

(** A well-formed answer of the provider with the two epoch values. *)
Definition answer (a b : Z) : response :=
  {| status_code := 200;
     content := Some (JObject [("results",
                                JObject [("sunrise", JScalar (Some a));
                                         ("sunset", JScalar (Some b))]);
                               ("status", JScalar None)]) |}.

(** A world in British Summer Time with nothing in its trace yet. *)
Definition bst_world (c : Z) (answers : list (option response)) : World :=
  {| clock := c; tz_offset := 3600; inbox := answers; exit_codes := []; trace := [] |}.

(** 2024-05-01T12:00:00+01:00 *)
Definition noon_1_may_2024 : Z := 1714561200.
(** 2024-05-01T23:00:00+01:00 *)
Definition eleven_pm_1_may_2024 : Z := 1714600800.
(** 2024-04-30T05:12:00Z and 2024-04-30T19:30:00Z: a day behind. *)
Definition stale_sunrise : Z := 1714453920.
Definition stale_sunset : Z := 1714505400.

(** An operation that is down: every invocation raises. *)
Definition always_down : M Z := raise RequestException.

(** An operation that is down until the clock reads [t], then returns [v]. *)
Definition down_until (t v : Z) : M Z :=
  fun w => if clock w <? t then Raised RequestException w else Returned v w.

(** Sunrise 05:00 and sunset 20:00 local on 1 May 2024, as epoch values. *)
Definition may_day_answer : response := answer 1714536000 1714590000.

(* ================================================================== *)
(** * Further shapes and instances                                     *)
(* ================================================================== *)

(** The daylight discipline of one command: a start lies in
    [sunrise, sunset); a stop lies before the sunrise, or in
    [sunset, next_1am). *)
Definition in_discipline (ti : TimeInfo) (p : Z * action) : Prop :=
  match snd p with
  | Command true =>
      timestamp (sunrise ti) <= fst p < timestamp (sunset ti)
  | Command false =>
      fst p < timestamp (sunrise ti)
      \/ timestamp (sunset ti) <= fst p < timestamp (next_1am ti)
  | SleepFor _ | Fetch _ => True
  end.

(** Sunrise 05:00 local on 1 May 2024 and sunset 00:30 local on 2 May:
    the sun sets after local midnight. *)
Definition midnight_sun_answer : response := answer 1714536000 1714606200.

(* ================================================================== *)
(** * The program on a host that keeps time                            *)
(* ================================================================== *)

(** The same program over a host that behaves as CPython on Linux does
    where the definitions above idealise it: the zone has a rule, so its
    UTC offset depends on the instant; the GET and [systemctl] take time,
    and [systemctl] may fail to start; [time.sleep] has a longest length;
    a JSON number may be infinite or not a number, and
    [datetime.fromtimestamp] has a range. *)
Module Host.

(** A Python float as the program meets one.  The model keeps whole
    seconds: the fraction of a finite value is dropped. *)
Inductive pyfloat :=
| Finite (secs : Z)
| Infinity (negative : bool)
| NaN.

(** The platform the interpreter runs on. *)
Record Platform := {
  gmtoff : Z -> Z;
    (* [time.localtime(u).tm_gmtoff]: seconds east of UTC in force at
       the instant [u] *)
  timestamp_ok : Z -> bool;
    (* the instants [datetime.fromtimestamp] accepts: the platform's
       [localtime] has a range of its own, and datetime holds the years 1
       to 9999 *)
  sleep_max : Z
    (* the longest sleep [time.sleep] accepts: CPython holds the length
       as 64-bit nanoseconds (about 9.2e9 s), and Linux adds it to the
       monotonic clock *)
}.

Inductive exn :=
| RequestException            (* [requests.get]: no connection, timeout, ... *)
| AssertionError
| JSONDecodeError
| KeyError (key : string)
| TypeError
| ValueError
| OverflowError
| OSError.

(** A decoded JSON value, as far as the program looks into it. *)
Inductive json :=
| JObject (members : list (string * json))
| JScalar (as_float : option pyfloat)
    (* a string, number or boolean; [as_float] is what [float()] makes of
       it ([json.loads] reads NaN and Infinity, and 1e400 as infinity),
       [None] when [float()] raises ValueError *)
| JOther.                     (* null, a list, ... *)

(** An HTTP response; [content] is [None] when the bytes are not JSON. *)
Record response := { status_code : Z; content : option json }.

Inductive message :=
| MsgGetting (u : url)
| MsgFailedCall (i : Z) (delay_s : pyfloat) (e : exn)
| MsgSunInfo (sun_info : option TimeInfo)
| MsgUsingDefault (sun_info : TimeInfo)
| MsgUnexpectedOrdering (sun_info : TimeInfo)
| MsgSleepingUntil (t : aware)
| MsgRunning (args : list string)
| MsgExited (returncode : Z).

Inductive event :=
| Log (level : loglevel) (m : message)
| HttpGet (u : url)
| Sleep (secs : Z)
| Run (args : list string)    (* a process that was started *)
| Call.                       (* one invocation of an opaque operation *)

(** The world: the clock, what the outside will answer and how long it
    will take to, and what has happened so far. *)
Record World := {
  clock : Z;
  inbox : list (option response * N);
    (* what the successive GETs meet, and the seconds each takes: [None]
       when the request itself fails; once the list is used up every
       request fails at once *)
  services : list (option Z * N);
    (* the successive [systemctl] runs, and the seconds each takes: the
       exit code, or [None] when the process cannot be started; once the
       list is used up every run exits with 0 at once *)
  trace : list (Z * event)
}.

Definition record (e : event) (w : World) : World :=
  {| clock := clock w; inbox := inbox w; services := services w;
     trace := trace w ++ [(clock w, e)] |}.

Definition advance (secs : Z) (w : World) : World :=
  {| clock := clock w + secs; inbox := inbox w; services := services w;
     trace := trace w |}.

Definition with_inbox (l : list (option response * N)) (w : World) : World :=
  {| clock := clock w; inbox := l; services := services w; trace := trace w |}.

Definition with_services (l : list (option Z * N)) (w : World) : World :=
  {| clock := clock w; inbox := inbox w; services := l; trace := trace w |}.

(** ** Computations: the platform is read, the world is passed on *)

Inductive outcome (A : Type) :=
| Returned (a : A) (w : World)
| Raised (e : exn) (w : World).
Arguments Returned {A} a w.
Arguments Raised {A} e w.

Definition M (A : Type) : Type := Platform -> World -> outcome A.

Definition ret {A} (a : A) : M A := fun _ w => Returned a w.

Definition bind {A B} (c : M A) (k : A -> M B) : M B :=
  fun p w => match c p w with
             | Returned a w' => k a p w'
             | Raised e w' => Raised e w'
             end.

Definition raise {A} (e : exn) : M A := fun _ w => Raised e w.

(** [try: body  except Exception as e: handler e] *)
Definition try_except {A} (body : M A) (handler : exn -> M A) : M A :=
  fun p w => match body p w with
             | Returned a w' => Returned a w'
             | Raised e w' => handler e p w'
             end.

Declare Scope host_scope.
Delimit Scope host_scope with host.
Notation "x <- c ;; k" := (bind c (fun x => k))
  (at level 61, c at next level, right associativity) : host_scope.
Notation "c ;; k" := (bind c (fun _ => k))
  (at level 61, right associativity) : host_scope.
Local Open Scope host_scope.

Definition world_of {A} (o : outcome A) : World :=
  match o with Returned _ w => w | Raised _ w => w end.

(** ** Library calls *)

(** [logging.log(level, msg)] *)
Definition logging (level : loglevel) (m : message) : M unit :=
  fun _ w => Returned tt (record (Log level m) w).

(** [time.sleep(secs)].  NaN and a negative length are a ValueError; an
    infinite length or one beyond the platform's longest is an
    OverflowError (an OSError on some platforms, and an OverflowError
    too for a length below about -9.2e9 s: exceptions all the same). *)
Definition time_sleep (secs : pyfloat) : M unit :=
  fun p w =>
    match secs with
    | NaN => Raised ValueError w
    | Infinity _ => Raised OverflowError w
    | Finite s =>
        if s <? 0 then Raised ValueError w
        else if sleep_max p <? s then Raised OverflowError w
        else Returned tt (advance s (record (Sleep s) w))
    end.

(** The aware local reading of the instant [u]: the wall clock shows
    [u + gmtoff u], and the offset in force at [u] is attached. *)
Definition reading (p : Platform) (u : Z) : aware :=
  {| wall := naive_of_wall_seconds (u + gmtoff p u); utcoffset := gmtoff p u |}.

(** [datetime.datetime.now().astimezone()].  A naive value made from an
    instant remembers which of two equal wall readings it is (its
    [fold]), so [astimezone()] gives back that instant with the offset in
    force at it. *)
Definition now_astimezone : M aware :=
  fun p w => Returned (reading p (clock w)) w.

(** [datetime.datetime.fromtimestamp(x).astimezone()] *)
Definition fromtimestamp_astimezone (x : pyfloat) : M aware :=
  fun p w =>
    match x with
    | NaN => Raised ValueError w
    | Infinity _ => Raised OverflowError w
    | Finite ts =>
        if timestamp_ok p ts then Returned (reading p ts) w
        else Raised OverflowError w   (* or ValueError, OSError *)
    end.

(** The wall reading at instant [u], in seconds ([local] of CPython's
    [_datetimemodule.c]). *)
Definition local (p : Platform) (u : Z) : Z := u + gmtoff p u.

(** CPython's [local_to_seconds] for [fold = 0]: an instant at which the
    wall clock shows [t]; the earlier one when there are two, and for a
    reading the wall clock skips, the later of the two candidates. *)
Definition local_to_seconds (p : Platform) (t : Z) : Z :=
  let a := local p t - t in
  let u1 := t - a in
  let t1 := local p u1 in
  let b := if t1 =? t then gmtoff p (u1 - 86400) else t1 - u1 in
  if (t1 =? t) && (a =? b) then u1
  else
    let u2 := t - b in
    if local p u2 =? t then u2
    else if t1 =? t then u1
    else Z.max u1 u2.

(** What [astimezone()] makes of a naive value with [fold = 0], in
    CPython 3.11: the offset [o1] found by [local_to_seconds] takes the
    reading to UTC, and the result is the local reading of that instant. *)
Definition resolve (p : Platform) (n : naive) : aware :=
  let t := wall_seconds n in
  let o1 := gmtoff p (local_to_seconds p t) in
  reading p (t - o1).

(** [dt.astimezone()] on the naive value of [datetime.combine] *)
Definition astimezone (n : naive) : M aware :=
  fun p w => Returned (resolve p n) w.

(** [requests.get(url, timeout=60)]; the timeout bounds each wait on the
    socket, not the whole request. *)
Definition requests_get (u : url) : M response :=
  fun _ w =>
    let next := hd (None, 0%N) (inbox w) in
    let w' := advance (Z.of_N (snd next))
                (with_inbox (tl (inbox w)) (record (HttpGet u) w)) in
    match fst next with
    | Some r => Returned r w'
    | None => Raised RequestException w'
    end.

(** [assert b] *)
Definition assert_ (b : bool) : M unit :=
  if b then ret tt else raise AssertionError.

(** [json.loads(response.content)] *)
Definition json_loads (c : option json) : M json :=
  match c with
  | Some j => ret j
  | None => raise JSONDecodeError
  end.

Fixpoint lookup (key : string) (members : list (string * json)) : option json :=
  match members with
  | [] => None
  | (k, v) :: rest => if String.eqb k key then Some v else lookup key rest
  end.

(** [j[key]] for a string key *)
Definition getitem (j : json) (key : string) : M json :=
  match j with
  | JObject members =>
      match lookup key members with
      | Some v => ret v
      | None => raise (KeyError key)
      end
  | _ => raise TypeError
  end.

(** [float(j)] *)
Definition float_ (j : json) : M pyfloat :=
  match j with
  | JScalar (Some x) => ret x
  | JScalar None => raise ValueError
  | _ => raise TypeError
  end.

(** [subprocess.run(args, stdout=subprocess.PIPE).returncode]: the call
    comes back when the process has ended; a process that cannot be
    started is an OSError. *)
Definition subprocess_run (args : list string) : M Z :=
  fun _ w =>
    let next := hd (Some 0, 0%N) (services w) in
    match fst next with
    | Some code =>
        Returned code
          (advance (Z.of_N (snd next))
             (with_services (tl (services w)) (record (Run args) w)))
    | None =>
        Raised OSError
          (advance (Z.of_N (snd next)) (with_services (tl (services w)) w))
    end.

(** ** The program *)

(** [TimeInfo.get_from_web] (lines 42-70) *)
Definition get_from_web (location : Location) : M TimeInfo :=
  now <- now_astimezone ;;
  let today := date_part now in
  let u := {| url_lat := lat location; url_lng := long location; url_date := today |} in
  logging INFO (MsgGetting u) ;;
  response <- requests_get u ;;
  assert_ (status_code response =? 200) ;;
  body <- json_loads (content response) ;;
  results <- getitem body "results" ;;
  sunrise <- (x <- getitem results "sunrise" ;;
              s <- float_ x ;; fromtimestamp_astimezone s) ;;
  sunset <- (x <- getitem results "sunset" ;;
             s <- float_ x ;; fromtimestamp_astimezone s) ;;
  (* the date returned by the API is a day old, but the time is correct *)
  let sunrise := replace_date sunrise today in
  let sunset := replace_date sunset today in
  one_am <- astimezone (combine today (time_at_hour 1)) ;;
  ret {| sunrise := sunrise; sunset := sunset; next_1am := add_days one_am 1 |}.

(** [TimeInfo.default] (lines 72-89) *)
Definition default : M TimeInfo :=
  now <- now_astimezone ;;
  let today := date_part now in
  (* assume 6am until 9pm sunup *)
  six_am <- astimezone (combine today (time_at_hour 6)) ;;
  nine_pm <- astimezone (combine today (time_at_hour 21)) ;;
  one_am <- astimezone (combine today (time_at_hour 1)) ;;
  ret {| sunrise := six_am; sunset := nine_pm; next_1am := add_days one_am 1 |}.

(** The loop of [retry] (lines 102-108) over the indices still to come. *)
Fixpoint retry_loop {T} (indices : list Z) (delay_s : pyfloat) (f : M T)
  : M (option T) :=
  match indices with
  | [] => ret None
  | i :: rest =>
      r <- try_except
             (v <- f ;; ret (Some v))
             (fun e =>
                logging WARNING (MsgFailedCall i delay_s e) ;;
                time_sleep delay_s ;;
                ret None) ;;
      match r with
      | Some v => ret (Some v)            (* [return f()] *)
      | None => retry_loop rest delay_s f (* next [i] *)
      end
  end.

(** [retry] (lines 97-108) *)
Definition retry {T} (times : Z) (delay_s : pyfloat) (f : M T) : M (option T) :=
  retry_loop (range 0 times) delay_s f.

(** [sleep_until] (lines 111-114) *)
Definition sleep_until (t : aware) : M unit :=
  now <- now_astimezone ;;
  let delta := sub_seconds t now in
  logging INFO (MsgSleepingUntil t) ;;
  time_sleep (Finite delta).

(** [set_service_state] (lines 117-128) *)
Definition set_service_state (start : bool) : M unit :=
  let args := ["systemctl"; if start then "start" else "stop";
               NATUREWATCH_SERVER_SERVICE_NAME] in
  logging INFO (MsgRunning args) ;;
  returncode <- subprocess_run args ;;
  logging (if returncode =? 0 then INFO else ERROR) (MsgExited returncode).

(** Lines 138-142 of [main]: the window of this iteration. *)
Definition obtain_sun_info (location : Location) : M TimeInfo :=
  sun_info <- retry 5 (Finite 120) (get_from_web location) ;;
  logging INFO (MsgSunInfo sun_info) ;;
  match sun_info with
  | None =>
      sun_info <- default ;;
      logging WARNING (MsgUsingDefault sun_info) ;;
      ret sun_info
  | Some sun_info => ret sun_info
  end.

(** Lines 144-147 of [main]: the ordering check. *)
Definition check_ordering (sun_info : TimeInfo) : M unit :=
  if negb (ltb (sunrise sun_info) (sunset sun_info)
           && ltb (sunset sun_info) (next_1am sun_info))
  then logging ERROR (MsgUnexpectedOrdering sun_info)
  else ret tt.

(** Lines 149-159 of [main]: the three steps of the day. *)
Definition day_cycle (sun_info : TimeInfo) : M unit :=
  now <- now_astimezone ;;
  (if ltb now (sunrise sun_info)
   then set_service_state false ;; sleep_until (sunrise sun_info)
   else ret tt) ;;
  now <- now_astimezone ;;
  (if ltb now (sunset sun_info)
   then set_service_state true ;; sleep_until (sunset sun_info)
   else ret tt) ;;
  (* wait until the next day before fetching the next sunrise/set information *)
  now <- now_astimezone ;;
  (if ltb now (next_1am sun_info)
   then (* make sure shutdown if this program is started after sunset *)
        set_service_state false ;; sleep_until (next_1am sun_info)
   else ret tt).

(** One pass through the body of [while True] (lines 138-159). *)
Definition main_iteration (location : Location) : M unit :=
  sun_info <- obtain_sun_info location ;;
  check_ordering sun_info ;;
  day_cycle sun_info.

(** The loop of [main] (lines 137-159), cut off after [fuel] passes. *)
Fixpoint main (fuel : nat) (location : Location) : M unit :=
  match fuel with
  | O => ret tt
  | S fuel' => main_iteration location ;; main fuel' location
  end.

(** ** What a run shows *)

(** The entries a run from [w] to [w'] has added to the trace. *)
Definition events_since (w w' : World) : list (Z * event) :=
  skipn (length (trace w)) (trace w').

(** The service commands among the entries: [true] for start. *)
Fixpoint commands (evs : list (Z * event)) : list bool :=
  match evs with
  | [] => []
  | (_, Run args) :: rest => String.eqb (nth 1 args "") "start" :: commands rest
  | _ :: rest => commands rest
  end.

(** The lengths of the sleeps among the entries. *)
Fixpoint sleeps (evs : list (Z * event)) : list Z :=
  match evs with
  | [] => []
  | (_, Sleep secs) :: rest => secs :: sleeps rest
  | _ :: rest => sleeps rest
  end.

(** The times at which the requests among the entries went out. *)
Fixpoint fetch_times (evs : list (Z * event)) : list Z :=
  match evs with
  | [] => []
  | (t, HttpGet _) :: rest => t :: fetch_times rest
  | _ :: rest => fetch_times rest
  end.

(** The invocations of an opaque operation among the entries. *)
Fixpoint invocations (evs : list (Z * event)) : nat :=
  match evs with
  | [] => O
  | (_, Call) :: rest => S (invocations rest)
  | _ :: rest => invocations rest
  end.

(** The attempt indices that [retry] has logged as failed, in order. *)
Fixpoint failed_calls (evs : list (Z * event)) : list Z :=
  match evs with
  | [] => []
  | (_, Log WARNING (MsgFailedCall i _ _)) :: rest => i :: failed_calls rest
  | _ :: rest => failed_calls rest
  end.

(** An operation seen from outside: each invocation leaves one [Call]
    entry in the trace in place of whatever the operation wrote there;
    its result, its exception and the rest of the world are its own. *)
Definition seal (w w' : World) : World :=
  {| clock := clock w'; inbox := inbox w'; services := services w';
     trace := trace w ++ [(clock w, Call)] |}.

Definition opaque {T} (op : M T) : M T :=
  fun p w => match op p w with
             | Returned v w' => Returned v (seal w w')
             | Raised e w' => Raised e (seal w w')
             end.

(** A delay that [time.sleep] accepts on the platform. *)
Definition sleepable (p : Platform) (d : pyfloat) : Prop :=
  match d with
  | Finite s => 0 <= s <= sleep_max p
  | _ => False
  end.

(** What a run of failed attempts of an opaque operation leaves in the
    trace: per attempt the invocation, the warning with the attempt's
    index, and the sleep. *)
Inductive failed_rounds (s : Z) : list Z -> list (Z * event) -> Prop :=
| failed_rounds_nil : failed_rounds s [] []
| failed_rounds_cons i indices t t' e evs :
    failed_rounds s indices evs ->
    failed_rounds s (i :: indices)
      ((t, Call) :: (t', Log WARNING (MsgFailedCall i (Finite s) e))
                 :: (t', Sleep s) :: evs).

(** The local calendar day of the world. *)
Definition today (p : Platform) (w : World) : date :=
  date_part (reading p (clock w)).

(** The wall reading the zone shows at the instant of [a]. *)
Definition local_wall (p : Platform) (a : aware) : naive :=
  wall (reading p (timestamp a)).

(** The zone keeps the offset [off] from three days before the instant
    [c] to three days after it. *)
Definition steady (p : Platform) (c off : Z) : Prop :=
  -86400 < off < 86400
  /\ forall u, c - 259200 <= u <= c + 259200 -> gmtoff p u = off.

(** The window [default()] builds on the local day [d]. *)
Definition default_window (p : Platform) (d : date) : TimeInfo :=
  {| sunrise := resolve p (combine d (time_at_hour 6));
     sunset := resolve p (combine d (time_at_hour 21));
     next_1am := add_days (resolve p (combine d (time_at_hour 1))) 1 |}.

(** What lines 49-55 read off a response: the two epoch values, or the
    exception met first. *)
Definition read_epoch (p : Platform) (o : option json) (key : string) : exn + Z :=
  match o with
  | None => inl (KeyError key)
  | Some (JScalar (Some (Finite ts))) =>
      if timestamp_ok p ts then inr ts else inl OverflowError
  | Some (JScalar (Some (Infinity _))) => inl OverflowError
  | Some (JScalar (Some NaN)) => inl ValueError
  | Some (JScalar None) => inl ValueError
  | Some _ => inl TypeError
  end.

Definition read_epochs (p : Platform) (r : response) : exn + (Z * Z) :=
  if negb (status_code r =? 200) then inl AssertionError else
  match content r with
  | None => inl JSONDecodeError
  | Some (JObject members) =>
      match lookup "results" members with
      | None => inl (KeyError "results")
      | Some (JObject results) =>
          match read_epoch p (lookup "sunrise" results) "sunrise" with
          | inl e => inl e
          | inr a =>
              match read_epoch p (lookup "sunset" results) "sunset" with
              | inl e => inl e
              | inr b => inr (a, b)
              end
          end
      | Some _ => inl TypeError
      end
  | Some _ => inl TypeError
  end.

(** An attempt of the fetch that cannot succeed: the request fails, or
    the response is not one with two epoch values that
    [fromtimestamp] accepts. *)
Definition fetch_fails (p : Platform) (o : option response * N) : bool :=
  match fst o with
  | None => true
  | Some r => match read_epochs p r with inl _ => true | inr _ => false end
  end.

(** The window [get_from_web] builds from the two epoch values. *)
Definition fetched_window (p : Platform) (a b : Z) (d : date) : TimeInfo :=
  {| sunrise := replace_date (reading p a) d;
     sunset := replace_date (reading p b) d;
     next_1am := add_days (resolve p (combine d (time_at_hour 1))) 1 |}.

(** The request of line 46 as issued from world [w]. *)
Definition request_of (p : Platform) (location : Location) (w : World) : url :=
  {| url_lat := lat location; url_lng := long location; url_date := today p w |}.

(** The world after the log line and the GET of one attempt. *)
Definition after_get (p : Platform) (location : Location) (w : World) : World :=
  advance (Z.of_N (snd (hd (None, 0%N) (inbox w))))
    (with_inbox (tl (inbox w))
       (record (HttpGet (request_of p location w))
          (record (Log INFO (MsgGetting (request_of p location w))) w))).

(** The world after the handler of lines 105-107 has run from [w]. *)
Definition after_failure (s : Z) (i : Z) (e : exn) (w : World) : World :=
  advance s
    (record (Sleep s) (record (Log WARNING (MsgFailedCall i (Finite s) e)) w)).

Definition systemctl_args (start : bool) : list string :=
  ["systemctl"; if start then "start" else "stop"; NATUREWATCH_SERVER_SERVICE_NAME].

(** The world after [set_service_state] has run a process that exited
    with [code] after [took] seconds. *)
Definition after_command (start : bool) (code : Z) (took : N) (w : World) : World :=
  record (Log (if code =? 0 then INFO else ERROR) (MsgExited code))
    (advance (Z.of_N took)
       (with_services (tl (services w))
          (record (Run (systemctl_args start))
             (record (Log INFO (MsgRunning (systemctl_args start))) w)))).

(** The world after [sleep_until t] has slept from [w] to the instant. *)
Definition after_sleep (t : aware) (w : World) : World :=
  advance (timestamp t - clock w)
    (record (Sleep (timestamp t - clock w))
       (record (Log INFO (MsgSleepingUntil t)) w)).

(** One of the three [if] statements of lines 149-159. *)
Definition guarded_step (start : bool) (t : aware) : M unit :=
  now <- now_astimezone ;;
  if ltb now t then set_service_state start ;; sleep_until t else ret tt.

(** The first of the three instants of a window that lies ahead at the
    clock reading [c], with the command its step gives. *)
Definition pending (ti : TimeInfo) (c : Z) : option (bool * aware) :=
  if c <? timestamp (sunrise ti) then Some (false, sunrise ti)
  else if c <? timestamp (sunset ti) then Some (true, sunset ti)
  else if c <? timestamp (next_1am ti) then Some (false, next_1am ti)
  else None.

(** Every [systemctl] run still to come starts, and ends within [m]
    seconds. *)
Definition prompt (m : Z) (runs : list (option Z * N)) : Prop :=
  Forall (fun r => fst r <> None /\ Z.of_N (snd r) <= m) runs.

(** The ordering invariant of a window. *)
Definition well_ordered (ti : TimeInfo) : Prop :=
  timestamp (sunrise ti) < timestamp (sunset ti)
  /\ timestamp (sunset ti) < timestamp (next_1am ti).

(** ** Instances *)

(** Europe/London in 2024: GMT, and BST from 31 March 01:00 UTC until
    27 October 01:00 UTC; [fromtimestamp] takes the years 1 to 9999. *)
Definition london : Platform :=
  {| gmtoff := fun u => if (1711846800 <=? u) && (u <? 1729990800) then 3600 else 0;
     timestamp_ok := fun ts => (-62135510400 <=? ts) && (ts <=? 253402300799);
     sleep_max := 9000000000 |}.

(** A world with nothing in its trace yet. *)
Definition world_at (c : Z) (answers : list (option response * N))
    (runs : list (option Z * N)) : World :=
  {| clock := c; inbox := answers; services := runs; trace := [] |}.

(** A well-formed answer of the provider with the two epoch values. *)
Definition answer (a b : pyfloat) : response :=
  {| status_code := 200;
     content := Some (JObject [("results",
                                JObject [("sunrise", JScalar (Some a));
                                         ("sunset", JScalar (Some b))]);
                               ("status", JScalar None)]) |}.

(** 2024-05-01T05:59:59+01:00, a second before the 06:00 of the default window *)
Definition before_six_1_may_2024 : Z := 1714539599.
(** 2024-10-27T12:00:00+00:00, the day the clocks go back *)
Definition noon_27_october_2024 : Z := 1730030400.
(** 2024-05-01T12:00:00+01:00 *)
Definition noon_1_may : Z := 1714561200.

(** An operation that is down: every invocation raises. *)
Definition always_down : M Z := raise RequestException.

(** An operation that is down until the clock reads [t], then returns [v]. *)
Definition down_until (t v : Z) : M Z :=
  fun _ w => if clock w <? t then Raised RequestException w else Returned v w.

(** Five ways to fail: no connection after a minute, a 503, a body that
    is not JSON, a sunrise that is not a number, a sunset beyond the
    year 9999. *)
Definition failing_answers : list (option response * N) :=
  [(None, 60%N);
   (Some {| status_code := 503; content := None |}, 1%N);
   (Some {| status_code := 200; content := None |}, 1%N);
   (Some (answer NaN (Finite 1714590000)), 2%N);
   (Some (answer (Finite 1714536000) (Finite 1000000000000000000)), 1%N)].

End Host.

(* ================================================================== *)
(** * The plain model: clock arithmetic                                *)
(* ================================================================== *)

(** From here to the sections on the host, the lemmas and theorems are
    about the program over the plain model of its library calls. *)

Example epoch_ordinal : ymd2ord 1970 1 1 = EPOCH_ORDINAL.
Proof. reflexivity. Qed.

Example ordinals_of_2024 :
  ymd2ord 2024 2 29 + 1 = ymd2ord 2024 3 1 /\ ymd2ord 2024 12 31 + 1 = ymd2ord 2025 1 1.
Proof. split; reflexivity. Qed.

Lemma wall_seconds_of_wall (s : Z) :
  wall_seconds (naive_of_wall_seconds s) = s.
Proof.
  unfold wall_seconds, naive_of_wall_seconds, seconds_of_time,
    SECONDS_PER_DAY, EPOCH_ORDINAL; cbn [date_of time_of hour minute second].
  Z.div_mod_to_equations. lia.
Qed.

Lemma timestamp_local_now (w : World) : timestamp (local_now w) = clock w.
Proof.
  unfold timestamp, local_now; cbn [wall utcoffset].
  rewrite wall_seconds_of_wall. lia.
Qed.

Lemma timestamp_at_hour (d h off : Z) :
  timestamp (at_hour d h off) = (d - EPOCH_ORDINAL) * 86400 + h * 3600 - off.
Proof.
  unfold timestamp, at_hour, wall_seconds, seconds_of_time, SECONDS_PER_DAY;
    cbn [wall utcoffset date_of time_of hour minute second]. lia.
Qed.

Lemma ltb_local_now (w : World) (t : aware) :
  ltb (local_now w) t = (clock w <? timestamp t).
Proof. unfold ltb. now rewrite timestamp_local_now. Qed.

Lemma fixed_window_ordered (d off : Z) : well_ordered (fixed_window d off).
Proof.
  unfold well_ordered, fixed_window; cbn [sunrise sunset next_1am].
  rewrite !timestamp_at_hour. lia.
Qed.

(* ================================================================== *)
(** * Running the pieces                                               *)
(* ================================================================== *)

Lemma bind_returned {A B} (c : M A) (k : A -> M B) w a w' :
  c w = Returned a w' -> bind c k w = k a w'.
Proof. unfold bind. now intros ->. Qed.

Lemma bind_raised {A B} (c : M A) (k : A -> M B) w e w' :
  c w = Raised e w' -> bind c k w = Raised e w'.
Proof. unfold bind. now intros ->. Qed.

Lemma now_astimezone_run (w : World) :
  now_astimezone w = Returned (local_now w) w.
Proof. reflexivity. Qed.

Lemma default_run (w : World) :
  default w = Returned (fixed_window (today w) (tz_offset w)) w.
Proof. reflexivity. Qed.

Lemma logging_run l m w : logging l m w = Returned tt (record (Log l m) w).
Proof. reflexivity. Qed.

Lemma astimezone_run n w :
  astimezone n w = Returned {| wall := n; utcoffset := tz_offset w |} w.
Proof. reflexivity. Qed.

Lemma fromtimestamp_run ts w :
  fromtimestamp ts w = Returned (naive_of_wall_seconds (ts + tz_offset w)) w.
Proof. reflexivity. Qed.

Lemma ret_run {A} (a : A) w : ret a w = Returned a w.
Proof. reflexivity. Qed.

Lemma raise_run {A} e w : @raise A e w = Raised e w.
Proof. reflexivity. Qed.

Lemma subprocess_run_run args w :
  subprocess_run args w =
  Returned (hd 0 (exit_codes w)) (with_exit_codes (tl (exit_codes w)) (record (Run args) w)).
Proof. reflexivity. Qed.

Lemma time_sleep_run secs w :
  0 <= secs ->
  time_sleep secs w = Returned tt (advance secs (record (Sleep secs) w)).
Proof.
  intros H. unfold time_sleep.
  destruct (Z.ltb_spec secs 0); [lia | reflexivity].
Qed.

Lemma time_sleep_negative secs w :
  secs < 0 -> time_sleep secs w = Raised ValueError w.
Proof.
  intros H. unfold time_sleep.
  destruct (Z.ltb_spec secs 0); [reflexivity | lia].
Qed.

Create HintDb run discriminated.
#[local] Hint Resolve now_astimezone_run default_run logging_run astimezone_run
  fromtimestamp_run ret_run raise_run subprocess_run_run : run.

(** One step through a [bind] whose first part returns. *)
Ltac mstep :=
  erewrite bind_returned by (eauto with run nocore); cbv beta zeta.

(** One step through a [bind] whose first part raises. *)
Ltac mraise :=
  erewrite bind_raised by (eauto with run nocore).

Lemma get_from_web_run (location : Location) (w : World) :
  get_from_web location w =
  match inbox w with
  | Some r :: _ =>
      match read_epochs r with
      | inr (a, b) =>
          Returned (fetched_window a b (today w) (tz_offset w)) (after_get location w)
      | inl e => Raised e (after_get location w)
      end
  | _ => Raised RequestException (after_get location w)
  end.
Proof.
  unfold get_from_web. mstep. mstep.
  change (date_part (local_now w)) with (today w).
  fold (request_of location w).
  unfold bind at 1, requests_get at 1.
  cbn [inbox record]. fold (after_get location w).
  destruct (inbox w) as [|[[code body]|] rest]; [reflexivity| |reflexivity].
  unfold read_epochs; cbn [status_code content].
  assert (Htz : tz_offset w = tz_offset (after_get location w)) by reflexivity.
  revert Htz. generalize (tz_offset w) as off.
  generalize (after_get location w) as w1. generalize (today w) as d.
  intros d w1 off ->.
  destruct (code =? 200); cbn [negb assert_]; [mstep | now mraise].
  destruct body as [j|]; cbn [json_loads]; [mstep | now mraise].
  destruct j as [members| |]; cbn [getitem]; [| now mraise | now mraise].
  destruct (lookup "results" members) as [[results| |]|];
    [mstep | reflexivity | reflexivity | now mraise].
  unfold bind at 1. unfold bind at 1. cbn [getitem].
  destruct (lookup "sunrise" results) as [[?|[a|]|]|]; try reflexivity.
  destruct (lookup "sunset" results) as [[?|[b|]|]|]; reflexivity.
Qed.

(* ================================================================== *)
(** * The time windows                                                 *)
(* ================================================================== *)



(* ================================================================== *)
(** * The retry wrapper                                                *)
(* ================================================================== *)

Section Retry.

Context {T : Type}.
Variable delay_s : Z.
Variable f : M T.

Lemma retry_loop_returned i rest w v w1 :
  f w = Returned v w1 ->
  retry_loop (i :: rest) delay_s f w = Returned (Some v) w1.
Proof.
  intros Hf. cbn [retry_loop]. unfold bind, try_except. now rewrite Hf.
Qed.

Lemma retry_loop_raised i rest w e w1 :
  0 <= delay_s ->
  f w = Raised e w1 ->
  retry_loop (i :: rest) delay_s f w
  = retry_loop rest delay_s f (after_failure delay_s i e w1).
Proof.
  intros Hd Hf. cbn [retry_loop]. unfold bind, try_except. rewrite Hf.
  rewrite logging_run, time_sleep_run by assumption. reflexivity.
Qed.

Lemma retry_loop_raised_negative i rest w e w1 :
  delay_s < 0 ->
  f w = Raised e w1 ->
  retry_loop (i :: rest) delay_s f w
  = Raised ValueError (record (Log WARNING (MsgFailedCall i delay_s e)) w1).
Proof.
  intros Hd Hf. cbn [retry_loop]. unfold bind, try_except. rewrite Hf.
  rewrite logging_run, time_sleep_negative by assumption. reflexivity.
Qed.

End Retry.

Lemma range_length (n : nat) : length (range 0 (Z.of_nat n)) = n.
Proof.
  unfold range. rewrite length_map, length_seq. lia.
Qed.

Lemma failed_rounds_invocations d indices evs :
  failed_rounds d indices evs -> invocations evs = length indices.
Proof. induction 1; cbn; congruence. Qed.

Lemma failed_rounds_sleeps d indices evs :
  failed_rounds d indices evs -> sleeps (actions evs) = repeat d (length indices).
Proof. induction 1; cbn; congruence. Qed.

Lemma failed_rounds_ends_asleep d indices evs :
  failed_rounds d indices evs ->
  indices <> [] ->
  exists pre t, evs = pre ++ [(t, Sleep d)].
Proof.
  induction 1 as [|i indices t t' e evs H IH]; intros Hne; [congruence|].
  destruct indices as [|j indices].
  - inversion H; subst.
    exists [(t, Call); (t', Log WARNING (MsgFailedCall i d e))], t'. reflexivity.
  - destruct IH as (pre & t0 & ->); [discriminate|].
    exists ((t, Call) :: (t', Log WARNING (MsgFailedCall i d e)) :: (t', Sleep d) :: pre), t0.
    reflexivity.
Qed.

Lemma opaque_returned {T} (op : M T) w v w' :
  opaque op w = Returned v w' -> exists w1, op w = Returned v w1.
Proof.
  unfold opaque. destruct (op w) as [v1 w1|e w1]; [|discriminate].
  intros [= -> _]. now exists w1.
Qed.

(** Sealing the invocations is only a way of counting them: for an
    operation that does not read the trace, [retry_loop] over the sealed
    operation ends as [retry_loop] over the operation itself does. *)
Lemma retry_loop_sealed_agrees {T} (d : Z) (op : M T) (indices : list Z) :
  trace_blind op ->
  forall w1 w2,
    same_outside w1 w2 ->
    agree (retry_loop indices d op w1) (retry_loop indices d (opaque op) w2).
Proof.
  intros Hblind. induction indices as [|i rest IH]; intros w1 w2 Hsame.
  - cbn. now split.
  - pose proof (Hblind w1 w2 Hsame) as Hop.
    destruct (op w1) as [v1 x1|e1 x1] eqn:H1; destruct (op w2) as [v2 x2|e2 x2] eqn:H2;
      cbn [agree] in Hop; try contradiction; destruct Hop as [<- Hx].
    + assert (Hsealed : opaque op w2 = Returned v1 (seal w2 x2))
        by (unfold opaque; now rewrite H2).
      rewrite (retry_loop_returned d op i rest w1 v1 x1 H1),
        (retry_loop_returned d _ i rest w2 v1 _ Hsealed).
      split; [reflexivity | exact Hx].
    + assert (Hsealed : opaque op w2 = Raised e1 (seal w2 x2))
        by (unfold opaque; now rewrite H2).
      destruct (Z.lt_ge_cases d 0) as [Hneg|Hpos].
      * rewrite (retry_loop_raised_negative d op i rest w1 e1 x1 Hneg H1),
          (retry_loop_raised_negative d _ i rest w2 e1 _ Hneg Hsealed).
        split; [reflexivity | exact Hx].
      * rewrite (retry_loop_raised d op i rest w1 e1 x1 Hpos H1),
          (retry_loop_raised d _ i rest w2 e1 _ Hpos Hsealed).
        apply IH. destruct Hx as (Hc & Hz & Hi & He).
        unfold same_outside, after_failure, advance, record, seal;
          cbn [clock tz_offset inbox exit_codes].
        repeat split; congruence.
Qed.

(** The run of [retry_loop] over an opaque operation, round by round. *)
Lemma retry_loop_rounds {T} (d : Z) (op : M T) (indices : list Z) :
  0 <= d ->
  forall w, exists r w' evs,
    retry_loop indices d (opaque op) w = Returned r w'
    /\ trace w' = trace w ++ evs
    /\ match r with
       | Some v =>
           exists wk failed rest pre,
             indices = failed ++ rest /\ rest <> []
             /\ failed_rounds d failed pre
             /\ evs = pre ++ [(clock wk, Call)]
             /\ opaque op wk = Returned v w'
       | None => failed_rounds d indices evs
       end.
Proof.
  intros Hd. induction indices as [|i rest IH]; intros w.
  - exists None, w, []. cbn [retry_loop]. rewrite app_nil_r.
    repeat split. constructor.
  - destruct (op w) as [v w1|e w1] eqn:Hop.
    + assert (Hrun : opaque op w = Returned v (seal w w1))
        by (unfold opaque; now rewrite Hop).
      exists (Some v), (seal w w1), [(clock w, Call)].
      rewrite (retry_loop_returned d _ i rest w v _ Hrun).
      repeat split.
      exists w, [], (i :: rest), [].
      repeat split; [discriminate | constructor | exact Hrun].
    + assert (Hrun : opaque op w = Raised e (seal w w1))
        by (unfold opaque; now rewrite Hop).
      rewrite (retry_loop_raised d _ i rest w e _ Hd Hrun).
      destruct (IH (after_failure d i e (seal w w1))) as (r & w' & evs & Hr & Htr & Hshape).
      exists r, w',
        ((clock w, Call) :: (clock w1, Log WARNING (MsgFailedCall i d e))
                         :: (clock w1, Sleep d) :: evs).
      split; [exact Hr | split].
      * rewrite Htr. cbn [after_failure seal advance record trace clock].
        rewrite <- !app_assoc. reflexivity.
      * destruct r as [v|].
        -- destruct Hshape as (wk & failed & rest' & pre & -> & Hne & Hrounds & -> & Hok).
           exists wk, (i :: failed), rest',
             ((clock w, Call) :: (clock w1, Log WARNING (MsgFailedCall i d e))
                              :: (clock w1, Sleep d) :: pre).
           repeat split; [exact Hne | now constructor | exact Hok].
        -- now constructor.
Qed.

Lemma firstn_seq_le (k start len : nat) :
  (k <= len)%nat -> firstn k (seq start len) = seq start k.
Proof.
  revert start len. induction k as [|k IH]; intros start len Hk; [reflexivity|].
  destruct len as [|len]; [lia|].
  cbn [seq firstn]. f_equal. apply IH. lia.
Qed.

Lemma range_prefix (n : nat) (failed rest : list Z) :
  range 0 (Z.of_nat n) = failed ++ rest ->
  failed = range 0 (Z.of_nat (length failed)).
Proof.
  intros Hsplit.
  assert (Hlen : (length failed <= n)%nat).
  { rewrite <- (range_length n), Hsplit, length_app. lia. }
  assert (Hfirst : failed = firstn (length failed) (range 0 (Z.of_nat n))).
  { rewrite Hsplit, firstn_app, Nat.sub_diag, firstn_all. cbn [firstn].
    now rewrite app_nil_r. }
  rewrite Hfirst at 1. unfold range.
  rewrite !Z.sub_0_r, !Nat2Z.id, firstn_map.
  now rewrite firstn_seq_le by exact Hlen.
Qed.

(** C8 on the code: when every invocation fails, [retry] sleeps after
    each of the [n] failed attempts, the last one too, and only then
    returns [None]: [n] sleeps, the last entry of the run being a sleep. *)
Theorem retry_sleeps_after_every_failure
    {T : Type} (n : nat) (d : Z) (op : M T) (w : World) :
  0 <= d ->
  (forall w0, exists e w1, op w0 = Raised e w1) ->
  exists w' evs,
    retry (Z.of_nat n) d (opaque op) w = Returned None w'
    /\ trace w' = trace w ++ evs
    /\ invocations evs = n
    /\ sleeps (actions evs) = repeat d n
    /\ (n <> O -> exists pre t, evs = pre ++ [(t, Sleep d)]).
Proof.
  intros Hd Hdown. unfold retry.
  destruct (retry_loop_rounds d op (range 0 (Z.of_nat n)) Hd w)
    as (r & w' & evs & Hrun & Htrace & Hshape).
  destruct r as [v|].
  - destruct Hshape as (wk & _ & _ & _ & _ & _ & _ & _ & Hok).
    destruct (opaque_returned op wk v w' Hok) as [w1 Hop].
    destruct (Hdown wk) as (e & w2 & Hraise). congruence.
  - exists w', evs. split; [exact Hrun | split; [exact Htrace |]].
    pose proof (failed_rounds_invocations _ _ _ Hshape) as Hcount.
    pose proof (failed_rounds_sleeps _ _ _ Hshape) as Hsleeps.
    rewrite range_length in Hcount, Hsleeps.
    split; [exact Hcount | split; [exact Hsleeps |]].
    intros Hn. apply (failed_rounds_ends_asleep d _ _ Hshape).
    intros Hnil. apply (f_equal (@length Z)) in Hnil.
    rewrite range_length in Hnil. now apply Hn.
Qed.

(** The instance with one attempt: it fails, and [retry] sleeps for the
    whole delay before it returns [None]. *)
Lemma retry_sleeps_after_every_failure_witness :
  0 <= 120
  /\ (forall w0, exists e w1, always_down w0 = Raised e w1)
  /\ exists w' evs,
       retry (Z.of_nat 1) 120 (opaque always_down) (bst_world noon_1_may_2024 [])
       = Returned None w'
       /\ trace w' = trace (bst_world noon_1_may_2024 []) ++ evs
       /\ invocations evs = 1%nat
       /\ sleeps (actions evs) = repeat 120 1
       /\ (1%nat <> O -> exists pre t, evs = pre ++ [(t, Sleep 120)]).
Proof.
  assert (Hdown : forall w0, exists e w1, always_down w0 = Raised e w1)
    by (intros w0; now exists RequestException, w0).
  split; [lia | split; [exact Hdown |]].
  apply (retry_sleeps_after_every_failure 1 120 always_down
           (bst_world noon_1_may_2024 [])); [lia | exact Hdown].
Defined.

(** The run of that instance. *)
Example retry_single_attempt_sleeps :
  exists w',
    retry 1 120 (opaque always_down) (bst_world noon_1_may_2024 [])
    = Returned None w'
    /\ sleeps (actions (trace w')) = [120]
    /\ clock w' = noon_1_may_2024 + 120.
Proof. eexists. split; [cbv; reflexivity | split; reflexivity]. Qed.

(* ================================================================== *)
(** * The steps of the day                                             *)
(* ================================================================== *)

Lemma set_service_state_run (start : bool) (w : World) :
  set_service_state start w =
  Returned tt
    {| clock := clock w; tz_offset := tz_offset w; inbox := inbox w;
       exit_codes := tl (exit_codes w);
       trace := trace w ++ command_events start (clock w) (exit_codes w) |}.
Proof.
  unfold set_service_state. fold (systemctl_args start).
  mstep. mstep. rewrite logging_run.
  unfold record, with_exit_codes, command_events;
    cbn [clock tz_offset inbox exit_codes trace].
  rewrite <- !app_assoc. reflexivity.
Qed.

Lemma sleep_until_run (t : aware) (w : World) :
  clock w <= timestamp t ->
  sleep_until t w =
  Returned tt
    {| clock := timestamp t; tz_offset := tz_offset w; inbox := inbox w;
       exit_codes := exit_codes w;
       trace := trace w ++ sleep_events t (clock w) |}.
Proof.
  intros Hle. unfold sleep_until. mstep. mstep.
  unfold sub_seconds. rewrite timestamp_local_now.
  cbn [record clock].
  rewrite time_sleep_run by (cbn [clock record]; lia).
  unfold advance, record, sleep_events;
    cbn [clock tz_offset inbox exit_codes trace].
  rewrite <- !app_assoc. do 2 f_equal. lia.
Qed.

(** Past the instant, [sleep_until] fails: [time.sleep] is given a
    negative length. *)
Lemma sleep_until_late (t : aware) (w : World) :
  timestamp t < clock w ->
  sleep_until t w = Raised ValueError (record (Log INFO (MsgSleepingUntil t)) w).
Proof.
  intros Hlt. unfold sleep_until. mstep. mstep.
  unfold sub_seconds. rewrite timestamp_local_now.
  now rewrite time_sleep_negative by (cbn [clock record]; lia).
Qed.

(** One guarded step, in front of whatever follows it. *)
Lemma guarded_step_run {A} (start : bool) (t : aware) (k : M A) (w : World) :
  (now <- now_astimezone ;;
   (if ltb now t then set_service_state start ;; sleep_until t else ret tt) ;;
   k) w
  = k (step_world start t w).
Proof.
  mstep. rewrite ltb_local_now. unfold step_world.
  destruct (Z.ltb_spec (clock w) (timestamp t)) as [Hlt|Hge].
  - unfold bind at 1. unfold bind at 1. rewrite set_service_state_run.
    rewrite sleep_until_run by (cbn [clock]; lia).
    cbn [clock tz_offset inbox exit_codes trace].
    now rewrite <- app_assoc.
  - now mstep.
Qed.

Lemma day_cycle_run (ti : TimeInfo) (w : World) :
  day_cycle ti w =
  Returned tt
    (step_world false (next_1am ti)
       (step_world true (sunset ti)
          (step_world false (sunrise ti) w))).
Proof.
  unfold day_cycle.
  rewrite guarded_step_run, guarded_step_run.
  mstep. rewrite ltb_local_now.
  set (w2 := step_world true (sunset ti) (step_world false (sunrise ti) w)).
  unfold step_world at 1.
  destruct (Z.ltb_spec (clock w2) (timestamp (next_1am ti))) as [Hlt|Hge];
    [| reflexivity].
  unfold bind. rewrite set_service_state_run.
  rewrite sleep_until_run by (cbn [clock]; lia).
  cbn [clock tz_offset inbox exit_codes trace].
  now rewrite <- app_assoc.
Qed.

Lemma actions_app (evs1 evs2 : list (Z * event)) :
  actions (evs1 ++ evs2) = actions evs1 ++ actions evs2.
Proof.
  induction evs1 as [|[t e] evs1 IH]; [reflexivity|].
  cbn [app actions]. destruct (action_of e); cbn [app]; now rewrite IH.
Qed.

(** One step of the code does what the specification words for it. *)
Lemma step_world_spec (start : bool) (t : aware) (w : World) :
  exists evs,
    trace (step_world start t w) = trace w ++ evs
    /\ actions evs = fst (spec_step start t (clock w))
    /\ clock (step_world start t w) = snd (spec_step start t (clock w))
    /\ tz_offset (step_world start t w) = tz_offset w
    /\ inbox (step_world start t w) = inbox w.
Proof.
  unfold step_world, spec_step.
  destruct (Z.ltb_spec (clock w) (timestamp t)) as [Hlt|Hge].
  - destruct (Z.leb_spec (timestamp t) (clock w)) as [Hle|_]; [lia|].
    exists (command_events start (clock w) (exit_codes w) ++ sleep_events t (clock w)).
    cbn [trace clock tz_offset inbox fst snd].
    repeat split. now destruct start.
  - destruct (Z.leb_spec (timestamp t) (clock w)) as [_|Hlt]; [|lia].
    exists []. rewrite app_nil_r. repeat split.
Qed.

(* ================================================================== *)
(** * How a run extends the world                                      *)
(* ================================================================== *)

Section Extends.

Variable Q : event -> Prop.

Lemma extends_refl w : extends Q w w.
Proof.
  split; [lia | split; [reflexivity |]].
  exists []. now rewrite app_nil_r.
Qed.

Lemma extends_trans w1 w2 w3 :
  extends Q w1 w2 -> extends Q w2 w3 -> extends Q w1 w3.
Proof.
  intros (Hc1 & Hz1 & evs1 & Ht1 & Hall1) (Hc2 & Hz2 & evs2 & Ht2 & Hall2).
  split; [lia | split; [congruence |]].
  exists (evs1 ++ evs2). split.
  - now rewrite Ht2, Ht1, app_assoc.
  - apply Forall_app. split; [exact Hall1 |].
    eapply Forall_impl; [| exact Hall2].
    intros p [Hp HQ]. split; [lia | exact HQ].
Qed.

Lemma extends_record e w : Q e -> extends Q w (record e w).
Proof.
  intros He. split; [cbn; lia | split; [reflexivity |]].
  exists [(clock w, e)]. split; [reflexivity |].
  constructor; [| constructor]. cbn. split; [lia | exact He].
Qed.

Lemma extends_advance secs w : 0 <= secs -> extends Q w (advance secs w).
Proof.
  intros Hs. split; [cbn; lia | split; [reflexivity |]].
  exists []. cbn. now rewrite app_nil_r.
Qed.

Lemma extends_with_inbox l w : extends Q w (with_inbox l w).
Proof.
  split; [cbn; lia | split; [reflexivity |]].
  exists []. cbn. now rewrite app_nil_r.
Qed.

End Extends.

Lemma extends_weaken (Q Q' : event -> Prop) w w' :
  (forall e, Q e -> Q' e) -> extends Q w w' -> extends Q' w w'.
Proof.
  intros Himp (Hc & Hz & evs & Ht & Hall).
  split; [exact Hc | split; [exact Hz |]].
  exists evs. split; [exact Ht |].
  eapply Forall_impl; [| exact Hall].
  intros p [Hp HQ]. split; [exact Hp | now apply Himp].
Qed.

Lemma extends_after_get location w : extends no_command w (after_get location w).
Proof.
  unfold after_get.
  eapply extends_trans; [| apply extends_with_inbox].
  eapply extends_trans; apply extends_record; exact I.
Qed.

Lemma extends_after_failure d i e w :
  0 <= d -> extends no_command w (after_failure d i e w).
Proof.
  intros Hd. unfold after_failure.
  eapply extends_trans; [| now apply extends_advance].
  eapply extends_trans; apply extends_record; exact I.
Qed.

Lemma extends_step_world start t w : extends anything w (step_world start t w).
Proof.
  unfold step_world.
  destruct (Z.ltb_spec (clock w) (timestamp t)) as [Hlt|Hge];
    [| apply extends_refl].
  split; [cbn; lia | split; [reflexivity |]].
  eexists. split; [reflexivity |].
  unfold command_events, sleep_events, anything.
  repeat constructor; cbn; lia.
Qed.

Lemma get_from_web_world location w :
  world_of (get_from_web location w) = after_get location w.
Proof.
  rewrite get_from_web_run.
  destruct (inbox w) as [|[r|] rest]; try reflexivity.
  now destruct (read_epochs r) as [e|[a b]].
Qed.

(** [retry] around the fetch: it returns, and it has extended the world
    reached by the first attempt's request. *)
Lemma retry_loop_fetch_extends location indices :
  forall w, exists r w',
    retry_loop indices 120 (get_from_web location) w = Returned r w'
    /\ extends no_command w w'.
Proof.
  induction indices as [|i rest IH]; intros w.
  - exists None, w. split; [reflexivity | apply extends_refl].
  - pose proof (get_from_web_world location w) as Hworld.
    destruct (get_from_web location w) as [ti w1|e w1] eqn:Hget;
      cbn [world_of] in Hworld; subst w1.
    + exists (Some ti), (after_get location w).
      split; [now apply retry_loop_returned | apply extends_after_get].
    + rewrite (retry_loop_raised 120 _ i rest w e _ ltac:(lia) Hget).
      destruct (IH (after_failure 120 i e (after_get location w))) as (r & w' & Hrun & Hext).
      exists r, w'. split; [exact Hrun |].
      eapply extends_trans; [apply (extends_after_get location w) |].
      eapply extends_trans; [apply (extends_after_failure 120 i e); lia | exact Hext].
Qed.

Lemma retry_fetch_starts_with_get location w :
  exists r w',
    retry 5 120 (get_from_web location) w = Returned r w'
    /\ extends no_command (after_get location w) w'.
Proof.
  unfold retry. change (range 0 5) with [0; 1; 2; 3; 4].
  pose proof (get_from_web_world location w) as Hworld.
  destruct (get_from_web location w) as [ti w1|e w1] eqn:Hget;
    cbn [world_of] in Hworld; subst w1.
  - exists (Some ti), (after_get location w).
    split; [now apply retry_loop_returned | apply extends_refl].
  - rewrite (retry_loop_raised 120 _ 0 _ w e _ ltac:(lia) Hget).
    destruct (retry_loop_fetch_extends location [1; 2; 3; 4]
                (after_failure 120 0 e (after_get location w))) as (r & w' & Hrun & Hext).
    exists r, w'. split; [exact Hrun |].
    eapply extends_trans; [apply (extends_after_failure 120 0 e); lia | exact Hext].
Qed.

(** In the plain model obtaining the window always succeeds; it issues
    no service command. *)
Lemma obtain_sun_info_extends location w :
  exists ti w',
    obtain_sun_info location w = Returned ti w'
    /\ extends no_command (after_get location w) w'.
Proof.
  unfold obtain_sun_info.
  destruct (retry_fetch_starts_with_get location w) as (r & w1 & Hrun & Hext).
  rewrite (bind_returned _ _ _ _ _ Hrun). mstep.
  destruct r as [ti|].
  - exists ti. eexists. split; [reflexivity |].
    eapply extends_trans; [exact Hext | now apply extends_record].
  - mstep. mstep. eexists. eexists. split; [reflexivity |].
    eapply extends_trans; [exact Hext |].
    eapply extends_trans; now apply extends_record.
Qed.

Lemma check_ordering_run (ti : TimeInfo) (w : World) :
  check_ordering ti w =
  Returned tt
    (if ltb (sunrise ti) (sunset ti) && ltb (sunset ti) (next_1am ti)
     then w else record (Log ERROR (MsgUnexpectedOrdering ti)) w).
Proof.
  unfold check_ordering.
  now destruct (ltb (sunrise ti) (sunset ti) && ltb (sunset ti) (next_1am ti)).
Qed.

Lemma extends_check_ordering ti w :
  extends no_command w (world_of (check_ordering ti w)).
Proof.
  rewrite check_ordering_run. cbn [world_of].
  destruct (ltb (sunrise ti) (sunset ti) && ltb (sunset ti) (next_1am ti));
    [apply extends_refl | now apply extends_record].
Qed.

(** In the plain model one pass of the loop always returns. *)
Lemma main_iteration_extends location w :
  exists w',
    main_iteration location w = Returned tt w'
    /\ extends anything (after_get location w) w'.
Proof.
  unfold main_iteration.
  destruct (obtain_sun_info_extends location w) as (ti & w1 & Hobtain & Hext).
  rewrite (bind_returned _ _ _ _ _ Hobtain).
  pose proof (extends_check_ordering ti w1) as Hcheck.
  rewrite check_ordering_run in Hcheck. cbn [world_of] in Hcheck.
  erewrite bind_returned by (apply check_ordering_run).
  rewrite day_cycle_run. eexists. split; [reflexivity |].
  eapply extends_trans;
    [eapply extends_weaken; [| exact Hext]; intros; exact I |].
  eapply extends_trans;
    [eapply extends_weaken; [| exact Hcheck]; intros; exact I |].
  eapply extends_trans; [apply extends_step_world |].
  eapply extends_trans; apply extends_step_world.
Qed.

(** In the plain model any number of passes returns. *)
Lemma main_extends location fuel :
  forall w, exists w', main fuel location w = Returned tt w' /\ extends anything w w'.
Proof.
  induction fuel as [|fuel IH]; intros w.
  - exists w. split; [reflexivity | apply extends_refl].
  - cbn [main].
    destruct (main_iteration_extends location w) as (w1 & Hrun & Hext).
    rewrite (bind_returned _ _ _ _ _ Hrun).
    destruct (IH w1) as (w2 & Hrest & Hext2).
    exists w2. split; [exact Hrest |].
    eapply extends_trans;
      [eapply extends_weaken; [| apply (extends_after_get location w)]; intros; exact I |].
    eapply extends_trans; [exact Hext | exact Hext2].
Qed.

(** The first thing a pass of the loop does to the outside is the GET,
    at the clock reading at which the pass starts. *)
Lemma main_starts_with_get location fuel w :
  exists w' evs,
    main (S fuel) location w = Returned tt w'
    /\ trace w' = trace w
                  ++ (clock w, Log INFO (MsgGetting (request_of location w)))
                  :: (clock w, HttpGet (request_of location w)) :: evs
    /\ Forall (fun p => clock w <= fst p) evs.
Proof.
  cbn [main].
  destruct (main_iteration_extends location w) as (w1 & Hrun & Hext).
  rewrite (bind_returned _ _ _ _ _ Hrun).
  destruct (main_extends location fuel w1) as (w2 & Hrest & Hext2).
  destruct (extends_trans _ _ _ _ Hext Hext2) as (_ & _ & evs & Htrace & Hall).
  exists w2, evs. split; [exact Hrest | split].
  - rewrite Htrace. unfold after_get, with_inbox, record; cbn [trace clock].
    now rewrite <- !app_assoc.
  - eapply Forall_impl; [| exact Hall]. intros p [Hp _]. exact Hp.
Qed.

Lemma events_since_app (w w' : World) (evs : list (Z * event)) :
  trace w' = trace w ++ evs -> events_since w w' = evs.
Proof.
  unfold events_since. intros ->.
  induction (trace w) as [|p l IH]; [reflexivity | exact IH].
Qed.

(** The three steps of the code do what the specification words for the day. *)
Lemma day_cycle_spec_day (ti : TimeInfo) (w : World) :
  exists w' evs,
    day_cycle ti w = Returned tt w'
    /\ trace w' = trace w ++ evs
    /\ actions evs = fst (spec_day ti (clock w))
    /\ clock w' = snd (spec_day ti (clock w))
    /\ tz_offset w' = tz_offset w
    /\ inbox w' = inbox w.
Proof.
  rewrite day_cycle_run. unfold spec_day.
  set (w1 := step_world false (sunrise ti) w).
  set (w2 := step_world true (sunset ti) w1).
  destruct (step_world_spec false (sunrise ti) w) as (e1 & Ht1 & Ha1 & Hc1 & Hz1 & Hi1).
  destruct (step_world_spec true (sunset ti) w1) as (e2 & Ht2 & Ha2 & Hc2 & Hz2 & Hi2).
  destruct (step_world_spec false (next_1am ti) w2) as (e3 & Ht3 & Ha3 & Hc3 & Hz3 & Hi3).
  fold w1 in Ht1, Hc1, Hz1, Hi1. fold w2 in Ht2, Hc2, Hz2, Hi2.
  rewrite Hc2, Hc1 in Ha3, Hc3. rewrite Hc1 in Ha2.
  destruct (spec_step false (sunrise ti) (clock w)) as [a1 t1].
  cbn [fst snd] in *.
  destruct (spec_step true (sunset ti) t1) as [a2 t2].
  cbn [fst snd] in *.
  destruct (spec_step false (next_1am ti) t2) as [a3 t3].
  cbn [fst snd] in *.
  eexists. exists (e1 ++ e2 ++ e3).
  split; [reflexivity | split; [| split; [| split; [| split]]]].
  - now rewrite Ht3, Ht2, Ht1, <- !app_assoc.
  - now rewrite !actions_app, Ha1, Ha2, Ha3.
  - exact Hc3.
  - congruence.
  - congruence.
Qed.

(** The day of 1 May 2024 run from 04:00 with the fixed window: stop and
    sleep to 06:00, start and sleep to 21:00, stop and sleep to 01:00. *)
Example day_cycle_from_four_am :
  exists w',
    day_cycle (fixed_window (ymd2ord 2024 5 1) 3600) (bst_world 1714532400 [])
    = Returned tt w'
    /\ actions (trace w')
       = [(1714532400, Command false); (1714532400, SleepFor 7200);
          (1714539600, Command true); (1714539600, SleepFor 54000);
          (1714593600, Command false); (1714593600, SleepFor 14400)]
    /\ clock w' = 1714608000.
Proof. eexists. split; [cbv; reflexivity | split; reflexivity]. Qed.


Lemma spec_step_passed (start : bool) (t : aware) (now : Z) :
  timestamp t <= now -> spec_step start t now = ([], now).
Proof.
  intros Hle. unfold spec_step.
  destruct (Z.leb_spec (timestamp t) now); [reflexivity | lia].
Qed.

Lemma spec_step_ahead (start : bool) (t : aware) (now : Z) :
  now < timestamp t ->
  spec_step start t now
  = ([(now, Command start); (now, SleepFor (timestamp t - now))], timestamp t).
Proof.
  intros Hlt. unfold spec_step.
  destruct (Z.leb_spec (timestamp t) now); [lia | reflexivity].
Qed.

Lemma no_command_commands (c : Z) (evs : list (Z * event)) :
  Forall (fun p => c <= fst p /\ no_command (snd p)) evs ->
  commands (actions evs) = [].
Proof.
  induction 1 as [|[t e] evs [_ Hq] _ IH]; [reflexivity|].
  destruct e; cbn in Hq |- *; try exact IH. contradiction.
Qed.

Lemma commands_app (a1 a2 : list (Z * action)) :
  commands (a1 ++ a2) = commands a1 ++ commands a2.
Proof.
  induction a1 as [|[t a] a1 IH]; [reflexivity|].
  destruct a; cbn; now rewrite IH.
Qed.

Lemma fetch_times_stamps (c : Z) (evs : list (Z * event)) :
  Forall (fun p => c <= fst p) evs ->
  Forall (fun t => c <= t) (fetch_times (actions evs)).
Proof.
  induction 1 as [|[t e] evs Hp _ IH]; [constructor|].
  cbn [actions]. destruct (action_of e) as [[s|secs|d]|]; cbn; auto.
Qed.

Lemma today_same (w w' : World) :
  clock w' = clock w -> tz_offset w' = tz_offset w -> today w' = today w.
Proof.
  intros Hc Hz. unfold today, local_now, date_part; cbn [wall date_of].
  now rewrite Hc, Hz.
Qed.

(** The rest of a pass once the window is known: the check, then the day. *)
Lemma rest_of_iteration_spec (ti : TimeInfo) (w : World) :
  exists w' evs,
    (check_ordering ti ;; day_cycle ti) w = Returned tt w'
    /\ trace w' = trace w ++ evs
    /\ actions evs = fst (spec_day ti (clock w))
    /\ clock w' = snd (spec_day ti (clock w))
    /\ tz_offset w' = tz_offset w.
Proof.
  erewrite bind_returned by (apply check_ordering_run).
  set (ok := ltb (sunrise ti) (sunset ti) && ltb (sunset ti) (next_1am ti)).
  set (w1 := if ok then w else record (Log ERROR (MsgUnexpectedOrdering ti)) w).
  assert (Hclock : clock w1 = clock w) by (subst w1; now destruct ok).
  assert (Hzone : tz_offset w1 = tz_offset w) by (subst w1; now destruct ok).
  destruct (day_cycle_spec_day ti w1) as (w' & evs & Hrun & Ht & Ha & Hc & Hz & _).
  rewrite Hclock in Ha, Hc.
  exists w'.
  exists ((if ok then [] else [(clock w, Log ERROR (MsgUnexpectedOrdering ti))]) ++ evs).
  split; [exact Hrun | split; [| split; [| split; [exact Hc | congruence]]]].
  - rewrite Ht. subst w1. destruct ok; [reflexivity |].
    cbn [record trace]. now rewrite <- app_assoc.
  - rewrite actions_app, Ha. now destruct ok.
Qed.






(* ================================================================== *)
(** * Fetch failures                                                   *)
(* ================================================================== *)

Lemma get_from_web_fails (location : Location) (w : World) :
  forallb fetch_fails (firstn 1 (inbox w)) = true ->
  exists e, get_from_web location w = Raised e (after_get location w).
Proof.
  intros Hfail. rewrite get_from_web_run.
  destruct (inbox w) as [|[r|] rest]; cbn in Hfail.
  - now exists RequestException.
  - destruct (read_epochs r) as [e|[a b]]; [now exists e | discriminate].
  - now exists RequestException.
Qed.

Lemma forallb_firstn_S {A} (p : A -> bool) (n : nat) (l : list A) :
  forallb p (firstn (S n) l) = true ->
  forallb p (firstn 1 l) = true /\ forallb p (firstn n (tl l)) = true.
Proof.
  destruct l as [|a l]; cbn [firstn forallb tl].
  - now rewrite firstn_nil.
  - rewrite andb_true_r. intros H. now apply andb_true_iff in H.
Qed.

(** When attempt after attempt fails, the loop of [retry] runs through
    all its indices, one GET each, and ends with no result. *)
Lemma retry_loop_fetch_all_fail (location : Location) (indices : list Z) :
  forall w,
    forallb fetch_fails (firstn (length indices) (inbox w)) = true ->
    exists w' evs,
      retry_loop indices 120 (get_from_web location) w = Returned None w'
      /\ trace w' = trace w ++ evs
      /\ length (fetch_times (actions evs)) = length indices.
Proof.
  induction indices as [|i rest IH]; intros w Hfail.
  - exists w, []. now rewrite app_nil_r.
  - cbn [length] in Hfail. apply forallb_firstn_S in Hfail as [Hfirst Hrest].
    destruct (get_from_web_fails location w Hfirst) as [e Hget].
    rewrite (retry_loop_raised 120 _ i rest w e _ ltac:(lia) Hget).
    destruct (IH (after_failure 120 i e (after_get location w)) Hrest)
      as (w' & evs & Hrun & Ht & Hlen).
    exists w'. eexists. split; [exact Hrun | split].
    + rewrite Ht. unfold after_failure, after_get, advance, with_inbox, record;
        cbn [trace clock]. rewrite <- !app_assoc. cbn [app]. reflexivity.
    + cbn [actions action_of fetch_times length]. now rewrite Hlen.
Qed.

(* ================================================================== *)
(** * Progress of the loop                                             *)
(* ================================================================== *)

(** 01:00 of the next local day lies ahead of the clock. *)
Lemma next_1am_ahead (w : World) :
  clock w < timestamp (at_hour (today w + 1) 1 (tz_offset w)).
Proof.
  rewrite timestamp_at_hour.
  unfold today, local_now, date_part, naive_of_wall_seconds, EPOCH_ORDINAL,
    SECONDS_PER_DAY; cbn [wall date_of].
  Z.div_mod_to_equations. lia.
Qed.

Lemma retry_loop_fetch_some (location : Location) (indices : list Z) :
  forall w ti w',
    retry_loop indices 120 (get_from_web location) w = Returned (Some ti) w' ->
    next_1am ti = at_hour (today w' + 1) 1 (tz_offset w').
Proof.
  induction indices as [|i rest IH]; intros w ti w' Hrun; [discriminate|].
  pose proof (get_from_web_run location w) as Hget.
  destruct (get_from_web location w) as [ti0 w1|e w1] eqn:Hweb.
  - rewrite (retry_loop_returned 120 _ i rest w ti0 w1 Hweb) in Hrun.
    injection Hrun as <- <-.
    destruct (inbox w) as [|[r|] ?]; try discriminate.
    destruct (read_epochs r) as [?|[a b]]; try discriminate.
    injection Hget as -> ->.
    now rewrite (today_same w (after_get location w) eq_refl eq_refl).
  - rewrite (retry_loop_raised 120 _ i rest w e w1 ltac:(lia) Hweb) in Hrun.
    exact (IH _ _ _ Hrun).
Qed.

(** The window a pass obtains always has its [next_1am] ahead of the
    clock: the third step of every pass of the loop sleeps, and the loop
    does not spin. *)
Lemma obtain_sun_info_ahead (location : Location) (w : World) (ti : TimeInfo) (w1 : World) :
  obtain_sun_info location w = Returned ti w1 ->
  clock w1 < timestamp (next_1am ti).
Proof.
  unfold obtain_sun_info, retry. intros Hrun.
  destruct (retry_loop_fetch_extends location (range 0 5) w) as (r & w0 & Hretry & _).
  rewrite (bind_returned _ _ _ _ _ Hretry) in Hrun.
  erewrite bind_returned in Hrun by (apply logging_run).
  destruct r as [ti0|].
  - injection Hrun as <- <-.
    rewrite (retry_loop_fetch_some location _ _ _ _ Hretry).
    apply (next_1am_ahead w0).
  - erewrite bind_returned in Hrun by (apply default_run).
    erewrite bind_returned in Hrun by (apply logging_run).
    injection Hrun as <- <-.
    apply (next_1am_ahead w0).
Qed.

(** From 23:00 on 1 May 2024 through two passes: the stop of the night,
    then the stop before the sunrise of 2 May, the start, and the stop
    after its sunset. *)
Example two_passes_from_eleven_pm :
  exists w',
    main 2 greenwich
      (bst_world eleven_pm_1_may_2024
         [Some may_day_answer; Some (answer 1714622400 1714676400)])
    = Returned tt w'
    /\ commands (actions (trace w')) = [false; false; true; false]
    /\ fetch_times (actions (trace w')) = [eleven_pm_1_may_2024; 1714608000].
Proof. eexists. split; [cbv; reflexivity | split; reflexivity]. Qed.

(* ================================================================== *)
(** * Further properties: the fetch                                    *)
(* ================================================================== *)


Lemma seconds_of_naive (s : Z) :
  seconds_of_time (time_of (naive_of_wall_seconds s)) = s mod SECONDS_PER_DAY.
Proof.
  unfold naive_of_wall_seconds, seconds_of_time, SECONDS_PER_DAY;
    cbn [time_of hour minute second].
  Z.div_mod_to_equations. lia.
Qed.

(** The instant of a decoded epoch value once its date is replaced. *)
Lemma timestamp_replaced (s off : Z) (d : date) :
  timestamp (replace_date {| wall := naive_of_wall_seconds (s + off); utcoffset := off |} d)
  = (d - EPOCH_ORDINAL) * SECONDS_PER_DAY + (s + off) mod SECONDS_PER_DAY - off.
Proof.
  unfold timestamp, replace_date, wall_seconds; cbn [wall utcoffset date_of time_of].
  now rewrite seconds_of_naive.
Qed.





(* ================================================================== *)
(** * Further properties: the helpers                                  *)
(* ================================================================== *)

(** X5: with no attempts to make (a count of zero or below), [retry]
    returns "no result" at once: the operation is not invoked, nothing is
    logged, nothing sleeps, whatever the delay. *)
Theorem retry_without_attempts {T : Type} (times d : Z) (f : M T) (w : World) :
  times <= 0 ->
  retry times d f w = Returned None w.
Proof.
  intros Hn. unfold retry, range.
  replace (Z.to_nat (times - 0)) with O by lia.
  reflexivity.
Qed.

Lemma retry_without_attempts_witness :
  -3 <= 0
  /\ retry (-3) (-1) (down_until 0 7) (bst_world noon_1_may_2024 [])
     = Returned None (bst_world noon_1_may_2024 []).
Proof.
  split; [lia |].
  apply (retry_without_attempts (-3) (-1) (down_until 0 7)
           (bst_world noon_1_may_2024 [])).
  lia.
Defined.


(* ================================================================== *)
(** * Further properties: the day                                      *)
(* ================================================================== *)

Ltac split_steps :=
  unfold spec_day, spec_step;
  repeat match goal with
         | |- context [?a <=? ?b] => destruct (Z.leb_spec a b)
         | |- context [?a <? ?b] => destruct (Z.ltb_spec a b)
         end;
  cbn [fst snd app commands actions map last].



Example sleep_until_on_time_and_late :
  (exists w',
      sleep_until (at_hour (ymd2ord 2024 5 1) 21 3600) (bst_world noon_1_may_2024 [])
      = Returned tt w'
      /\ sleeps (actions (trace w')) = [32400])
  /\ (exists w',
         sleep_until (at_hour (ymd2ord 2024 5 1) 6 3600) (bst_world noon_1_may_2024 [])
         = Raised ValueError w'
         /\ sleeps (actions (trace w')) = []).
Proof.
  split; eexists; (split; [cbv; reflexivity | reflexivity]).
Qed.

(* ================================================================== *)
(** * Further properties: obtaining the window, and the loop           *)
(* ================================================================== *)

(** The run of [retry] around the fetch, counted: [k] failed attempts,
    each followed by a sleep of 120 s, and one more request when the
    result is a window. *)
Lemma retry_loop_fetch_counts (location : Location) (indices : list Z) :
  forall w, exists r w' evs k,
    retry_loop indices 120 (get_from_web location) w = Returned r w'
    /\ trace w' = trace w ++ evs
    /\ (k <= length indices)%nat
    /\ (r = None -> k = length indices)
    /\ (r <> None -> (k < length indices)%nat)
    /\ sleeps (actions evs) = repeat 120 k
    /\ length (fetch_times (actions evs))
       = (k + match r with Some _ => 1 | None => 0 end)%nat
    /\ commands (actions evs) = []
    /\ clock w' = clock w + 120 * Z.of_nat k.
Proof.
  induction indices as [|i rest IH]; intros w.
  - exists None, w, [], O. rewrite app_nil_r. cbn.
    repeat split; try lia. congruence.
  - pose proof (get_from_web_world location w) as Hworld.
    destruct (get_from_web location w) as [ti w1|e w1] eqn:Hget;
      cbn [world_of] in Hworld; subst w1.
    + exists (Some ti), (after_get location w).
      exists [(clock w, Log INFO (MsgGetting (request_of location w)));
              (clock w, HttpGet (request_of location w))], O.
      rewrite (retry_loop_returned 120 _ i rest w ti _ Hget).
      unfold after_get, with_inbox, record; cbn [trace clock length].
      rewrite <- app_assoc.
      repeat split; try lia; try discriminate.
    + rewrite (retry_loop_raised 120 _ i rest w e _ ltac:(lia) Hget).
      destruct (IH (after_failure 120 i e (after_get location w)))
        as (r & w' & evs & k & Hrun & Ht & Hk & Hnone & Hsome & Hsl & Hf & Hcm & Hc).
      exists r, w'.
      exists ((clock w, Log INFO (MsgGetting (request_of location w)))
              :: (clock w, HttpGet (request_of location w))
              :: (clock w, Log WARNING (MsgFailedCall i 120 e))
              :: (clock w, Sleep 120) :: evs), (S k).
      split; [exact Hrun | split].
      * rewrite Ht. unfold after_failure, after_get, advance, with_inbox, record;
          cbn [trace clock]. rewrite <- !app_assoc. reflexivity.
      * cbn [length actions action_of sleeps fetch_times commands repeat].
        rewrite Hsl, Hf, Hcm, Hc.
        unfold after_failure, after_get, advance, with_inbox, record; cbn [clock].
        repeat split; try lia.
        -- intros Hr. specialize (Hnone Hr). lia.
        -- intros Hr. specialize (Hsome Hr). lia.
Qed.


(** The run of [retry] around the fetch when the answers fail one after
    the other and then one carries the two values, attempts being left. *)
Lemma retry_loop_fetch_recovers
    (location : Location) (r : response) (rest : list (option response)) (a b : Z)
    (bad : list (option response)) :
  forallb fetch_fails bad = true ->
  read_epochs r = inr (a, b) ->
  forall indices w,
    inbox w = bad ++ Some r :: rest ->
    (length bad < length indices)%nat ->
    exists w' evs,
      retry_loop indices 120 (get_from_web location) w
      = Returned (Some (fetched_window a b (today w') (tz_offset w'))) w'
      /\ trace w' = trace w ++ evs
      /\ clock w' = clock w + 120 * Z.of_nat (length bad)
      /\ tz_offset w' = tz_offset w
      /\ inbox w' = rest
      /\ length (fetch_times (actions evs)) = S (length bad).
Proof.
  intros Hbad Hread. induction bad as [|o bad IH]; intros indices w Hinbox Hlen.
  - destruct indices as [|i indices]; [cbn in Hlen; lia |].
    assert (Hget : get_from_web location w
                   = Returned (fetched_window a b (today w) (tz_offset w))
                              (after_get location w))
      by (rewrite get_from_web_run, Hinbox; cbn [app]; now rewrite Hread).
    rewrite (retry_loop_returned 120 _ i indices w _ _ Hget).
    exists (after_get location w). eexists.
    split; [reflexivity | split].
    + unfold after_get, with_inbox, record; cbn [trace clock].
      rewrite <- app_assoc. reflexivity.
    + unfold after_get, with_inbox, record; cbn [clock tz_offset inbox length].
      rewrite Hinbox. repeat split. lia.
  - destruct indices as [|i indices]; [cbn in Hlen; lia |].
    cbn [forallb] in Hbad. apply andb_true_iff in Hbad as [Ho Hbad].
    assert (Hfirst : forallb fetch_fails (firstn 1 (inbox w)) = true)
      by (rewrite Hinbox; cbn; now rewrite Ho).
    destruct (get_from_web_fails location w Hfirst) as [e Hget].
    rewrite (retry_loop_raised 120 _ i indices w e _ ltac:(lia) Hget).
    destruct (IH Hbad indices (after_failure 120 i e (after_get location w)))
      as (w' & evs & Hrun & Ht & Hc & Hz & Hi & Hf).
    + unfold after_failure, after_get, advance, with_inbox, record; cbn [inbox].
      now rewrite Hinbox.
    + cbn [length] in Hlen. lia.
    + exists w'. eexists. split; [exact Hrun | split].
      * rewrite Ht. unfold after_failure, after_get, advance, with_inbox, record;
          cbn [trace clock]. rewrite <- !app_assoc. cbn [app]. reflexivity.
      * cbn [actions action_of fetch_times length].
        rewrite Hc, Hz, Hf.
        unfold after_failure, after_get, advance, with_inbox, record;
          cbn [clock tz_offset].
        repeat split; try exact Hi. lia.
Qed.





(* ================================================================== *)
(** * The host that keeps time: running the pieces                     *)
(* ================================================================== *)

Import Host.
Local Open Scope host_scope.

Lemma host_bind_returned {A B} (c : M A) (k : A -> M B) p w a w' :
  c p w = Returned a w' -> bind c k p w = k a p w'.
Proof. unfold bind. now intros ->. Qed.

Lemma host_bind_raised {A B} (c : M A) (k : A -> M B) p w e w' :
  c p w = Raised e w' -> bind c k p w = Raised e w'.
Proof. unfold bind. now intros ->. Qed.

Lemma timestamp_reading (p : Platform) (u : Z) : timestamp (reading p u) = u.
Proof.
  unfold timestamp, reading; cbn [wall utcoffset].
  rewrite wall_seconds_of_wall. lia.
Qed.

Lemma ltb_reading (p : Platform) (u : Z) (t : aware) :
  ltb (reading p u) t = (u <? timestamp t).
Proof. unfold ltb. now rewrite timestamp_reading. Qed.

Lemma host_now_run p w : now_astimezone p w = Returned (reading p (clock w)) w.
Proof. reflexivity. Qed.

Lemma host_logging_run l m p w : logging l m p w = Returned tt (record (Log l m) w).
Proof. reflexivity. Qed.

Lemma host_astimezone_run n p w : astimezone n p w = Returned (resolve p n) w.
Proof. reflexivity. Qed.

Lemma host_ret_run {A} (a : A) p w : ret a p w = Returned a w.
Proof. reflexivity. Qed.

Lemma host_raise_run {A} e p w : @raise A e p w = Raised e w.
Proof. reflexivity. Qed.

Lemma host_default_run p w :
  default p w = Returned (default_window p (today p w)) w.
Proof. reflexivity. Qed.

Lemma host_time_sleep_run s p w :
  0 <= s <= sleep_max p ->
  time_sleep (Finite s) p w = Returned tt (advance s (record (Sleep s) w)).
Proof.
  intros [H0 Hmax]. unfold time_sleep.
  destruct (Z.ltb_spec s 0); [lia |].
  destruct (Z.ltb_spec (sleep_max p) s); [lia | reflexivity].
Qed.

Lemma host_time_sleep_negative s p w :
  s < 0 -> time_sleep (Finite s) p w = Raised ValueError w.
Proof.
  intros H. unfold time_sleep.
  destruct (Z.ltb_spec s 0); [reflexivity | lia].
Qed.

Create HintDb hrun discriminated.
#[local] Hint Resolve host_now_run host_logging_run host_astimezone_run
  host_ret_run host_raise_run host_default_run : hrun.

(** One step through a [bind] whose first part returns. *)
Ltac hstep :=
  erewrite host_bind_returned by (eauto with hrun nocore); cbv beta zeta.

(** One step through a [bind] whose first part raises. *)
Ltac hraise :=
  erewrite host_bind_raised by (eauto with hrun nocore).

(* ================================================================== *)
(** * The zone                                                         *)
(* ================================================================== *)

(** The wall reading of a full hour of a day is that hour of that day. *)
Lemma naive_of_hour (d h : Z) :
  0 <= h < 24 ->
  naive_of_wall_seconds (wall_seconds (combine d (time_at_hour h)))
  = combine d (time_at_hour h).
Proof.
  intros Hh.
  unfold wall_seconds, combine, time_at_hour, seconds_of_time, SECONDS_PER_DAY;
    cbn [date_of time_of hour minute second].
  unfold naive_of_wall_seconds, SECONDS_PER_DAY.
  assert (Hq : ((d - EPOCH_ORDINAL) * 86400 + (h * 3600 + 0 * 60 + 0)) / 86400
               = d - EPOCH_ORDINAL) by (Z.div_mod_to_equations; lia).
  assert (Hr : ((d - EPOCH_ORDINAL) * 86400 + (h * 3600 + 0 * 60 + 0)) mod 86400
               = h * 3600) by (Z.div_mod_to_equations; lia).
  rewrite Hq, Hr.
  f_equal; [lia |].
  f_equal; Z.div_mod_to_equations; lia.
Qed.

(** The local day of an instant contains the instant. *)
Lemma day_of_reading (p : Platform) (c : Z) :
  let d := date_part (reading p c) in
  (d - EPOCH_ORDINAL) * 86400 <= c + gmtoff p c < (d - EPOCH_ORDINAL) * 86400 + 86400.
Proof.
  unfold date_part, reading, naive_of_wall_seconds, SECONDS_PER_DAY;
    cbn [wall date_of].
  Z.div_mod_to_equations. lia.
Qed.

(** Away from a change of the offset, a full hour of the local day of
    the instant [c], or of the day after, is resolved with the offset in
    force. *)
Lemma resolve_steady (p : Platform) (c off d h : Z) :
  steady p c off ->
  date_part (reading p c) <= d <= date_part (reading p c) + 1 ->
  0 <= h < 24 ->
  resolve p (combine d (time_at_hour h)) = at_hour d h off.
Proof.
  intros [Hoff Hsteady] Hd Hh.
  pose proof (day_of_reading p c) as Hday. cbv zeta in Hday.
  rewrite (Hsteady c) in Hday by lia.
  set (d0 := date_part (reading p c)) in *.
  assert (Hwall : wall_seconds (combine d (time_at_hour h))
                  = (d - EPOCH_ORDINAL) * 86400 + h * 3600)
    by (unfold wall_seconds, combine, time_at_hour, seconds_of_time, SECONDS_PER_DAY;
        cbn [date_of time_of hour minute second]; lia).
  unfold resolve, at_hour.
  fold (time_at_hour h). fold (combine d (time_at_hour h)).
  rewrite <- (naive_of_hour d h Hh).
  set (t := wall_seconds (combine d (time_at_hour h))) in *.
  assert (Ht : gmtoff p t = off) by (apply Hsteady; lia).
  assert (Hu1 : gmtoff p (t - off) = off) by (apply Hsteady; lia).
  assert (Hu2 : gmtoff p (t - off - 86400) = off) by (apply Hsteady; lia).
  assert (Hsec : local_to_seconds p t = t - off).
  { unfold local_to_seconds, local. rewrite Ht.
    replace (t + off - t) with off by lia.
    rewrite Hu1, Hu2.
    replace (t - off + off) with t by lia.
    now rewrite !Z.eqb_refl. }
  rewrite wall_seconds_of_wall, Hsec, Hu1. unfold reading. rewrite Hu1.
  now replace (t - off + off) with t by lia.
Qed.

(** With the offset in force at its instant, a full hour of a day is
    what the zone shows at that instant. *)
Lemma local_wall_at_hour (p : Platform) (d h off : Z) :
  0 <= h < 24 ->
  gmtoff p (timestamp (at_hour d h off)) = off ->
  local_wall p (at_hour d h off) = combine d (time_at_hour h).
Proof.
  intros Hh Hoff. unfold local_wall, reading; cbn [wall]. rewrite Hoff.
  rewrite <- (naive_of_hour d h Hh). f_equal.
  unfold timestamp, at_hour; cbn [wall utcoffset].
  unfold combine, time_at_hour. lia.
Qed.

(** In the months of British Summer Time the London zone is steady. *)
Lemma london_steady_in_may : steady london noon_1_may 3600.
Proof.
  split; [lia |]. intros u Hu. unfold london, noon_1_may in *; cbn [gmtoff].
  destruct (Z.leb_spec 1711846800 u); [| lia].
  destruct (Z.ltb_spec u 1729990800); [reflexivity | lia].
Qed.

(** What the London zone makes of 01:00 around its two changes of 2024,
    as CPython 3.11 does: on 31 March the wall clock skips 01:00 and the
    value comes out as 00:00 GMT; on 27 October 01:00 comes twice and the
    first one, in summer time, is taken. *)
Example london_resolves_one_am :
  resolve london (combine (ymd2ord 2024 3 30) (time_at_hour 1))
  = at_hour (ymd2ord 2024 3 30) 1 0
  /\ resolve london (combine (ymd2ord 2024 3 31) (time_at_hour 1))
     = at_hour (ymd2ord 2024 3 31) 0 0
  /\ resolve london (combine (ymd2ord 2024 4 1) (time_at_hour 1))
     = at_hour (ymd2ord 2024 4 1) 1 3600
  /\ resolve london (combine (ymd2ord 2024 10 27) (time_at_hour 1))
     = at_hour (ymd2ord 2024 10 27) 1 3600
  /\ resolve london (combine (ymd2ord 2024 10 27) (time_at_hour 6))
     = at_hour (ymd2ord 2024 10 27) 6 0
  /\ resolve london (combine (ymd2ord 2024 10 28) (time_at_hour 1))
     = at_hour (ymd2ord 2024 10 28) 1 0.
Proof. repeat split; vm_compute; reflexivity. Qed.

(* ================================================================== *)
(** * The default window                                               *)
(* ================================================================== *)




(* ================================================================== *)
(** * The fetch                                                        *)
(* ================================================================== *)

Lemma host_get_from_web_run (location : Location) (p : Platform) (w : World) :
  get_from_web location p w =
  match fst (hd (None, 0%N) (inbox w)) with
  | Some r =>
      match read_epochs p r with
      | inr (a, b) =>
          Returned (fetched_window p a b (today p w)) (after_get p location w)
      | inl e => Raised e (after_get p location w)
      end
  | None => Raised RequestException (after_get p location w)
  end.
Proof.
  unfold get_from_web. hstep. hstep.
  change (date_part (reading p (clock w))) with (today p w).
  fold (request_of p location w).
  unfold bind at 1, requests_get at 1.
  cbn [inbox record]. fold (after_get p location w).
  generalize (after_get p location w) as w1. generalize (today p w) as d.
  intros d w1.
  destruct (fst (hd (None, 0%N) (inbox w))) as [[code body]|]; [| reflexivity].
  unfold read_epochs; cbn [status_code content].
  destruct (code =? 200); cbn [negb assert_]; [hstep | now hraise].
  destruct body as [j|]; cbn [json_loads]; [hstep | now hraise].
  destruct j as [members| |]; cbn [getitem]; [| now hraise | now hraise].
  destruct (lookup "results" members) as [[results| |]|];
    [hstep | reflexivity | reflexivity | now hraise].
  unfold bind at 1. unfold bind at 1. cbn [getitem]. unfold read_epoch.
  destruct (lookup "sunrise" results) as [[?|[[a|?|]|]|]|]; try reflexivity.
  unfold bind at 1. cbn [float_ ret fromtimestamp_astimezone].
  destruct (timestamp_ok p a); [| reflexivity].
  unfold bind at 1. unfold bind at 1.
  destruct (lookup "sunset" results) as [[?|[[b|?|]|]|]|]; try reflexivity.
  unfold bind at 1. cbn [float_ ret fromtimestamp_astimezone].
  destruct (timestamp_ok p b); reflexivity.
Qed.

Lemma host_read_epochs_inr (p : Platform) (r : response) (a b : Z) :
  read_epochs p r = inr (a, b) <->
  status_code r = 200
  /\ exists members results,
       content r = Some (JObject members)
       /\ lookup "results" members = Some (JObject results)
       /\ lookup "sunrise" results = Some (JScalar (Some (Finite a)))
       /\ lookup "sunset" results = Some (JScalar (Some (Finite b)))
       /\ timestamp_ok p a = true
       /\ timestamp_ok p b = true.
Proof.
  unfold read_epochs, read_epoch. split.
  - destruct (Z.eqb_spec (status_code r) 200) as [Hcode|Hcode]; cbn [negb];
      [| discriminate].
    destruct (content r) as [[members| |]|] eqn:Hbody; try discriminate.
    destruct (lookup "results" members) as [[results| |]|] eqn:Hres; try discriminate.
    destruct (lookup "sunrise" results) as [[?|[[a'|?|]|]|]|] eqn:Hrise; try discriminate.
    destruct (timestamp_ok p a') eqn:Ha; try discriminate.
    destruct (lookup "sunset" results) as [[?|[[b'|?|]|]|]|] eqn:Hset; try discriminate.
    destruct (timestamp_ok p b') eqn:Hb; try discriminate.
    intros [= -> ->]. split; [exact Hcode |]. now exists members, results.
  - intros (Hcode & members & results & -> & Hres & Hrise & Hset & Ha & Hb).
    rewrite Hcode, Hres, Hrise, Hset, Ha, Hb. reflexivity.
Qed.

(** C9: two fetches that succeed at the same system time build the same
    [next_1am], whatever the provider answered and for whatever place: a
    day of wall-clock arithmetic after the instant the zone resolves
    01:00 of the day of the fetch to.  Away from a change of the zone's
    offset, that is 01:00 of the day after the fetch, local time. *)
Theorem next_1am_comes_from_the_clock
    (l1 l2 : Location) (p : Platform) (w1 w2 : World)
    (ti1 ti2 : TimeInfo) (w1' w2' : World) :
  clock w1 = clock w2 ->
  get_from_web l1 p w1 = Returned ti1 w1' ->
  get_from_web l2 p w2 = Returned ti2 w2' ->
  next_1am ti1 = next_1am ti2
  /\ next_1am ti1 = add_days (resolve p (combine (today p w1) (time_at_hour 1))) 1
  /\ (forall off, steady p (clock w1) off ->
        next_1am ti1 = at_hour (today p w1 + 1) 1 off
        /\ local_wall p (next_1am ti1) = combine (today p w1 + 1) (time_at_hour 1)).
Proof.
  intros Hclock H1 H2.
  assert (Hday : today p w2 = today p w1) by (unfold today; now rewrite Hclock).
  rewrite host_get_from_web_run in H1, H2.
  destruct (fst (hd (None, 0%N) (inbox w1))) as [r1|]; try discriminate.
  destruct (read_epochs p r1) as [?|[a1 b1]]; try discriminate.
  destruct (fst (hd (None, 0%N) (inbox w2))) as [r2|]; try discriminate.
  destruct (read_epochs p r2) as [?|[a2 b2]]; try discriminate.
  injection H1 as <- _. injection H2 as <- _.
  unfold fetched_window; cbn [next_1am]. rewrite Hday.
  split; [reflexivity | split; [reflexivity |]].
  intros off Hsteady.
  assert (Hone : resolve p (combine (today p w1) (time_at_hour 1))
                 = at_hour (today p w1) 1 off)
    by (unfold today; apply (resolve_steady p (clock w1) off); (exact Hsteady || lia)).
  rewrite Hone. split; [reflexivity |].
  change (add_days (at_hour (today p w1) 1 off) 1) with (at_hour (today p w1 + 1) 1 off).
  destruct Hsteady as [Hoff Hsteady].
  pose proof (day_of_reading p (clock w1)) as Hbounds. cbv zeta in Hbounds.
  rewrite (Hsteady (clock w1)) in Hbounds by lia. fold (today p w1) in Hbounds.
  apply local_wall_at_hour; [lia |]. apply Hsteady. rewrite timestamp_at_hour. lia.
Qed.

(** An instance: London at noon on 1 May 2024, two different answers. *)
Lemma next_1am_comes_from_the_clock_witness :
  exists ti1 ti2 w1' w2',
    get_from_web greenwich london
      (world_at noon_1_may [(Some (answer (Finite 1714453920) (Finite 1714505400)), 1%N)] [])
    = Returned ti1 w1'
    /\ get_from_web greenwich london
         (world_at noon_1_may [(Some (answer (Finite 1714536000) (Finite 1714590000)), 7%N)] [])
       = Returned ti2 w2'
    /\ time_of (wall (sunrise ti1)) = {| hour := 6; minute := 12; second := 0 |}
    /\ time_of (wall (sunrise ti2)) = {| hour := 5; minute := 0; second := 0 |}
    /\ next_1am ti1 = next_1am ti2
    /\ next_1am ti1 = at_hour (ymd2ord 2024 5 2) 1 3600
    /\ local_wall london (next_1am ti1) = combine (ymd2ord 2024 5 2) (time_at_hour 1).
Proof.
  do 4 eexists.
  split; [vm_compute; reflexivity | split; [vm_compute; reflexivity |]].
  split; [reflexivity | split; [reflexivity |]].
  destruct (next_1am_comes_from_the_clock greenwich greenwich london
              (world_at noon_1_may
                 [(Some (answer (Finite 1714453920) (Finite 1714505400)), 1%N)] [])
              (world_at noon_1_may
                 [(Some (answer (Finite 1714536000) (Finite 1714590000)), 7%N)] [])
              _ _ _ _ eq_refl eq_refl eq_refl) as (Heq & _ & Hsteady).
  destruct (Hsteady 3600 london_steady_in_may) as [Hnext Hwall].
  split; [exact Heq | split; [exact Hnext | exact Hwall]].
Defined.

(** The second half of C9 as stated fails on the day the clocks go
    back: a fetch that succeeds in London at noon on 27 October 2024
    builds a [next_1am] at whose instant London shows midnight of
    28 October, not 01:00. *)
Lemma next_1am_when_the_clocks_go_back :
  exists ti w',
    get_from_web greenwich london
      (world_at noon_27_october_2024
         [(Some (answer (Finite 1729925000) (Finite 1729960000)), 1%N)] [])
    = Returned ti w'
    /\ date_part (sunrise ti) = ymd2ord 2024 10 27
    /\ next_1am ti = at_hour (ymd2ord 2024 10 28) 1 3600
    /\ timestamp (next_1am ti) = 1730073600
    /\ gmtoff london (timestamp (next_1am ti)) = 0
    /\ local_wall london (next_1am ti) = combine (ymd2ord 2024 10 28) (time_at_hour 0)
    /\ local_wall london (next_1am ti) <> combine (ymd2ord 2024 10 28) (time_at_hour 1).
Proof.
  do 2 eexists.
  split; [vm_compute; reflexivity |].
  repeat split. intros H. discriminate H.
Qed.

(** X2: the fetch returns a window exactly when the next answer of the
    provider is a response with status 200 whose body is a JSON object
    with an object under "results" that holds, under "sunrise" and
    "sunset", finite numbers (or numeric strings) that
    [datetime.fromtimestamp] accepts; in every other case it raises. *)
Theorem get_from_web_returns_exactly_when
    (location : Location) (p : Platform) (w : World) :
  (exists ti w', get_from_web location p w = Returned ti w') <->
  (exists r took rest members results a b,
      inbox w = (Some r, took) :: rest
      /\ status_code r = 200
      /\ content r = Some (JObject members)
      /\ lookup "results" members = Some (JObject results)
      /\ lookup "sunrise" results = Some (JScalar (Some (Finite a)))
      /\ lookup "sunset" results = Some (JScalar (Some (Finite b)))
      /\ timestamp_ok p a = true
      /\ timestamp_ok p b = true).
Proof.
  rewrite host_get_from_web_run. split.
  - intros (ti & w' & Hrun).
    destruct (inbox w) as [|[[r|] took] rest]; cbn [hd fst] in Hrun; try discriminate.
    destruct (read_epochs p r) as [e|[a b]] eqn:Hread; [discriminate |].
    apply host_read_epochs_inr in Hread
      as (Hcode & members & results & Hbody & Hres & Hrise & Hset & Ha & Hb).
    now exists r, took, rest, members, results, a, b.
  - intros (r & took & rest & members & results & a & b
            & -> & Hcode & Hbody & Hres & Hrise & Hset & Ha & Hb).
    assert (Hread : read_epochs p r = inr (a, b)).
    { apply host_read_epochs_inr. split; [exact Hcode |]. now exists members, results. }
    cbn [hd fst]. rewrite Hread. now do 2 eexists.
Qed.

(* ================================================================== *)
(** * The retry wrapper on the host                                    *)
(* ================================================================== *)

Section HostRetry.

Context {T : Type}.
Variable p : Platform.
Variable f : M T.

Lemma host_retry_loop_returned d i rest w v w1 :
  f p w = Returned v w1 ->
  retry_loop (i :: rest) d f p w = Returned (Some v) w1.
Proof.
  intros Hf. cbn [retry_loop]. unfold bind, try_except. now rewrite Hf.
Qed.

Lemma host_retry_loop_raised s i rest w e w1 :
  0 <= s <= sleep_max p ->
  f p w = Raised e w1 ->
  retry_loop (i :: rest) (Finite s) f p w
  = retry_loop rest (Finite s) f p (after_failure s i e w1).
Proof.
  intros Hs Hf. cbn [retry_loop]. unfold bind, try_except. rewrite Hf.
  rewrite host_logging_run, host_time_sleep_run by assumption. reflexivity.
Qed.

(** With a delay that [time.sleep] refuses, the handler of the first
    failed attempt raises. *)
Lemma host_retry_loop_refused d i rest w e w1 :
  ~ sleepable p d ->
  f p w = Raised e w1 ->
  exists e', retry_loop (i :: rest) d f p w
             = Raised e' (record (Log WARNING (MsgFailedCall i d e)) w1).
Proof.
  intros Hd Hf. cbn [retry_loop]. unfold bind, try_except. rewrite Hf.
  rewrite host_logging_run. unfold time_sleep.
  destruct d as [s| |]; [| now eexists | now eexists].
  destruct (Z.ltb_spec s 0); [now eexists |].
  destruct (Z.ltb_spec (sleep_max p) s); [now eexists |].
  exfalso. apply Hd. cbn. lia.
Qed.

End HostRetry.

Lemma host_failed_rounds_invocations s indices evs :
  failed_rounds s indices evs -> invocations evs = length indices.
Proof. induction 1; cbn; congruence. Qed.

Lemma host_failed_rounds_failed_calls s indices evs :
  failed_rounds s indices evs -> failed_calls evs = indices.
Proof. induction 1; cbn; congruence. Qed.

Lemma host_invocations_app evs1 evs2 :
  invocations (evs1 ++ evs2) = (invocations evs1 + invocations evs2)%nat.
Proof.
  induction evs1 as [|[t e] evs1 IH]; [reflexivity|].
  cbn. destruct e; cbn; lia.
Qed.

Lemma host_opaque_returned {T} (op : M T) p w v w' :
  opaque op p w = Returned v w' -> exists w1, op p w = Returned v w1.
Proof.
  unfold opaque. destruct (op p w) as [v1 w1|e w1]; [|discriminate].
  intros [= -> _]. now exists w1.
Qed.

(** The run of [retry_loop] over an opaque operation, round by round. *)
Lemma host_retry_loop_rounds {T} (p : Platform) (s : Z) (op : M T) (indices : list Z) :
  0 <= s <= sleep_max p ->
  forall w, exists r w' evs,
    retry_loop indices (Finite s) (opaque op) p w = Returned r w'
    /\ trace w' = trace w ++ evs
    /\ match r with
       | Some v =>
           exists wk failed rest pre,
             indices = failed ++ rest /\ rest <> []
             /\ failed_rounds s failed pre
             /\ evs = pre ++ [(clock wk, Call)]
             /\ opaque op p wk = Returned v w'
       | None => failed_rounds s indices evs
       end.
Proof.
  intros Hs. induction indices as [|i rest IH]; intros w.
  - exists None, w, []. cbn [retry_loop]. rewrite app_nil_r.
    repeat split. constructor.
  - destruct (op p w) as [v w1|e w1] eqn:Hop.
    + assert (Hrun : opaque op p w = Returned v (seal w w1))
        by (unfold opaque; now rewrite Hop).
      exists (Some v), (seal w w1), [(clock w, Call)].
      rewrite (host_retry_loop_returned p _ (Finite s) i rest w v _ Hrun).
      repeat split.
      exists w, [], (i :: rest), [].
      repeat split; [discriminate | constructor | exact Hrun].
    + assert (Hrun : opaque op p w = Raised e (seal w w1))
        by (unfold opaque; now rewrite Hop).
      rewrite (host_retry_loop_raised p _ s i rest w e _ Hs Hrun).
      destruct (IH (after_failure s i e (seal w w1))) as (r & w' & evs & Hr & Htr & Hshape).
      exists r, w',
        ((clock w, Call) :: (clock w1, Log WARNING (MsgFailedCall i (Finite s) e))
                         :: (clock w1, Sleep s) :: evs).
      split; [exact Hr | split].
      * rewrite Htr. cbn [after_failure seal advance record trace clock].
        rewrite <- !app_assoc. reflexivity.
      * destruct r as [v|].
        -- destruct Hshape as (wk & failed & rest' & pre & -> & Hne & Hrounds & -> & Hok).
           exists wk, (i :: failed), rest',
             ((clock w, Call) :: (clock w1, Log WARNING (MsgFailedCall i (Finite s) e))
                              :: (clock w1, Sleep s) :: pre).
           repeat split; [exact Hne | now constructor | exact Hok].
        -- now constructor.
Qed.

(** C2, for a delay that [time.sleep] accepts: [retry] returns and never
    raises; the operation is invoked at most [n] times, one invocation
    after the other; when the result is [Some v] the last thing that
    happened is the invocation that returned [v], and every invocation
    before it failed; the result is [None] only after [n] failed
    invocations, and it is [None] when no invocation can succeed. *)
Theorem retry_contract_for_accepted_delay
    {T : Type} (n : nat) (d : pyfloat) (op : M T) (p : Platform) (w : World) :
  sleepable p d ->
  exists r w' evs,
    retry (Z.of_nat n) d (opaque op) p w = Returned r w'
    /\ trace w' = trace w ++ evs
    /\ (invocations evs <= n)%nat
    /\ match r with
       | Some v =>
           exists wk pre,
             opaque op p wk = Returned v w'
             /\ evs = pre ++ [(clock wk, Call)]
             /\ failed_calls pre = range 0 (Z.of_nat (invocations pre))
       | None =>
           invocations evs = n /\ failed_calls evs = range 0 (Z.of_nat n)
       end
    /\ ((forall w0 v w1, op p w0 <> Returned v w1) -> r = None).
Proof.
  intros Hd. destruct d as [s| |]; cbn [sleepable] in Hd; try contradiction.
  unfold retry.
  destruct (host_retry_loop_rounds p s op (range 0 (Z.of_nat n)) Hd w)
    as (r & w' & evs & Hrun & Htrace & Hshape).
  exists r, w', evs. split; [exact Hrun | split; [exact Htrace |]].
  destruct r as [v|].
  - destruct Hshape as (wk & failed & rest & pre & Hsplit & Hrest & Hrounds & -> & Hok).
    pose proof (host_failed_rounds_invocations _ _ _ Hrounds) as Hcount.
    pose proof (host_failed_rounds_failed_calls _ _ _ Hrounds) as Hfailed.
    assert (Hlen : (length failed < n)%nat).
    { pose proof (range_length n) as Hn. rewrite Hsplit, length_app in Hn.
      destruct rest; [congruence | cbn [length] in Hn; lia]. }
    split; [| split].
    + rewrite host_invocations_app. cbn. lia.
    + exists wk, pre. repeat split; [exact Hok |].
      rewrite Hfailed, Hcount. exact (range_prefix n failed rest Hsplit).
    + intros Hnever. destruct (host_opaque_returned op p wk v w' Hok) as [w1 Hop].
      now destruct (Hnever wk v w1).
  - pose proof (host_failed_rounds_invocations _ _ _ Hshape) as Hcount.
    pose proof (host_failed_rounds_failed_calls _ _ _ Hshape) as Hfailed.
    rewrite range_length in Hcount.
    split; [lia | split; [split; [exact Hcount | exact Hfailed] | reflexivity]].
Qed.

(** An instance: down until two minutes have passed, three attempts. *)
Lemma retry_contract_for_accepted_delay_witness :
  sleepable london (Finite 120)
  /\ exists r w' evs,
       retry (Z.of_nat 3) (Finite 120) (opaque (down_until (noon_1_may + 200) 7))
             london (world_at noon_1_may [] [])
       = Returned r w'
       /\ trace w' = trace (world_at noon_1_may [] []) ++ evs
       /\ (invocations evs <= 3)%nat
       /\ match r with
          | Some v =>
              exists wk pre,
                opaque (down_until (noon_1_may + 200) 7) london wk = Returned v w'
                /\ evs = pre ++ [(clock wk, Call)]
                /\ failed_calls pre = range 0 (Z.of_nat (invocations pre))
          | None =>
              invocations evs = 3%nat /\ failed_calls evs = range 0 (Z.of_nat 3)
          end
       /\ ((forall w0 v w1, down_until (noon_1_may + 200) 7 london w0 <> Returned v w1)
           -> r = None).
Proof.
  assert (Hd : sleepable london (Finite 120)) by (cbn; lia).
  split; [exact Hd |].
  exact (retry_contract_for_accepted_delay 3 (Finite 120)
           (down_until (noon_1_may + 200) 7) london (world_at noon_1_may [] []) Hd).
Defined.

(** The run of that instance: two failures, then the result. *)
Example host_retry_third_time_lucky :
  exists w',
    retry 3 (Finite 120) (opaque (down_until (noon_1_may + 200) 7))
          london (world_at noon_1_may [] [])
    = Returned (Some 7) w'
    /\ invocations (trace w') = 3%nat
    /\ failed_calls (trace w') = [0; 1]
    /\ clock w' = noon_1_may + 240.
Proof. eexists. split; [vm_compute; reflexivity | repeat split]. Qed.

(** C2 as stated, for every delay, fails.  With a delay that
    [time.sleep] refuses (negative, too long, infinite, not a number)
    the sleep after the first failed attempt raises, inside the handler:
    [retry] neither invokes the operation again nor returns [None],
    although every invocation fails. *)
Lemma retry_refused_delay_raises :
  (forall p w0, exists e w1, always_down p w0 = Raised e w1)
  /\ (exists w',
        retry 2 (Finite (-1)) (opaque always_down) london (world_at noon_1_may [] [])
        = Raised ValueError w'
        /\ invocations (trace w') = 1%nat /\ sleeps (trace w') = [])
  /\ (exists w',
        retry 2 (Finite 10000000000) (opaque always_down) london (world_at noon_1_may [] [])
        = Raised OverflowError w'
        /\ invocations (trace w') = 1%nat /\ sleeps (trace w') = [])
  /\ (exists w',
        retry 2 (Infinity false) (opaque always_down) london (world_at noon_1_may [] [])
        = Raised OverflowError w'
        /\ invocations (trace w') = 1%nat /\ sleeps (trace w') = [])
  /\ (exists w',
        retry 2 NaN (opaque always_down) london (world_at noon_1_may [] [])
        = Raised ValueError w'
        /\ invocations (trace w') = 1%nat /\ sleeps (trace w') = []).
Proof.
  split; [intros p w0; now exists RequestException, w0 |].
  repeat split; eexists; (split; [vm_compute; reflexivity | split; reflexivity]).
Qed.

(* ================================================================== *)
(** * Fetch failures on the host                                       *)
(* ================================================================== *)

Lemma host_get_from_web_fails (location : Location) (p : Platform) (w : World) :
  fetch_fails p (hd (None, 0%N) (inbox w)) = true ->
  exists e, get_from_web location p w = Raised e (after_get p location w).
Proof.
  intros Hfail. rewrite host_get_from_web_run. unfold fetch_fails in Hfail.
  destruct (fst (hd (None, 0%N) (inbox w))) as [r|].
  - destruct (read_epochs p r) as [e|[a b]]; [now exists e | discriminate].
  - now exists RequestException.
Qed.

Lemma host_forallb_firstn_S (p : Platform) (n : nat) (l : list (option response * N)) :
  forallb (fetch_fails p) (firstn (S n) l) = true ->
  fetch_fails p (hd (None, 0%N) l) = true
  /\ forallb (fetch_fails p) (firstn n (tl l)) = true.
Proof.
  destruct l as [|a l]; cbn [firstn forallb tl hd].
  - now rewrite firstn_nil.
  - intros H. now apply andb_true_iff in H.
Qed.

(** [retry] around the fetch always returns, on a platform that can
    sleep for two minutes. *)
Lemma host_retry_loop_fetch_total (location : Location) (p : Platform) (indices : list Z) :
  120 <= sleep_max p ->
  forall w, exists r w',
    retry_loop indices (Finite 120) (get_from_web location) p w = Returned r w'.
Proof.
  intros Hmax. induction indices as [|i rest IH]; intros w.
  - now exists None, w.
  - destruct (get_from_web location p w) as [ti w1|e w1] eqn:Hget.
    + exists (Some ti), w1. now apply host_retry_loop_returned.
    + rewrite (host_retry_loop_raised p _ 120 i rest w e w1 ltac:(lia) Hget). apply IH.
Qed.

Lemma host_events_since_app (w w' : World) (evs : list (Z * event)) :
  trace w' = trace w ++ evs -> events_since w w' = evs.
Proof.
  unfold events_since. intros ->.
  induction (trace w) as [|x l IH]; [reflexivity | exact IH].
Qed.

(** When attempt after attempt fails, the loop of [retry] runs through
    all its indices, one GET each, and ends with no result. *)
Lemma host_retry_loop_fetch_all_fail
    (location : Location) (p : Platform) (indices : list Z) :
  120 <= sleep_max p ->
  forall w,
    forallb (fetch_fails p) (firstn (length indices) (inbox w)) = true ->
    exists w' evs,
      retry_loop indices (Finite 120) (get_from_web location) p w = Returned None w'
      /\ trace w' = trace w ++ evs
      /\ length (fetch_times evs) = length indices
      /\ sleeps evs = repeat 120 (length indices).
Proof.
  intros Hmax. induction indices as [|i rest IH]; intros w Hfail.
  - exists w, []. now rewrite app_nil_r.
  - cbn [length] in Hfail. apply host_forallb_firstn_S in Hfail as [Hfirst Hrest].
    destruct (host_get_from_web_fails location p w Hfirst) as [e Hget].
    rewrite (host_retry_loop_raised p _ 120 i rest w e _ ltac:(lia) Hget).
    destruct (IH (after_failure 120 i e (after_get p location w)) Hrest)
      as (w' & evs & Hrun & Ht & Hlen & Hsl).
    exists w'. eexists. split; [exact Hrun | split].
    + rewrite Ht. unfold after_failure, after_get, advance, with_inbox, record;
        cbn [trace clock]. rewrite <- !app_assoc. cbn [app]. reflexivity.
    + cbn [fetch_times sleeps length repeat]. now rewrite Hlen, Hsl.
Qed.

(** Lines 138-142 always return, on a platform that can sleep for two
    minutes: no fetch failure leaves them as an exception. *)
Lemma host_obtain_sun_info_total (location : Location) (p : Platform) :
  120 <= sleep_max p ->
  forall w, exists ti w1, obtain_sun_info location p w = Returned ti w1.
Proof.
  intros Hmax w. unfold obtain_sun_info, retry.
  destruct (host_retry_loop_fetch_total location p (range 0 5) Hmax w)
    as (r & w0 & Hretry).
  rewrite (host_bind_returned _ _ _ _ _ _ Hretry). hstep.
  destruct r as [ti|].
  - now do 2 eexists.
  - hstep. hstep. now do 2 eexists.
Qed.



(** The run of that instance: the exceptions met, in order, the window
    the day is then run on, and the time it has taken. *)
Example host_five_failures_run :
  exists w1,
    obtain_sun_info greenwich london (world_at noon_1_may failing_answers [])
    = Returned (fixed_window (ymd2ord 2024 5 1) 3600) w1
    /\ map (fun x => match snd x with
                     | Log WARNING (MsgFailedCall _ _ e) => Some e
                     | _ => None
                     end)
           (filter (fun x => match snd x with
                             | Log WARNING (MsgFailedCall _ _ _) => true
                             | _ => false
                             end) (trace w1))
       = [Some RequestException; Some AssertionError; Some JSONDecodeError;
          Some ValueError; Some OverflowError]
    /\ clock w1 = noon_1_may + 665.
Proof. eexists. split; [vm_compute; reflexivity | split; reflexivity]. Qed.

(* ================================================================== *)
(** * The steps of the day on the host                                 *)
(* ================================================================== *)

Lemma host_set_service_state_run (start : bool) p (w : World) code took :
  hd (Some 0, 0%N) (services w) = (Some code, took) ->
  set_service_state start p w = Returned tt (after_command start code took w).
Proof.
  intros Hnext. unfold set_service_state. fold (systemctl_args start).
  hstep. unfold bind at 1, subprocess_run at 1. cbn [services record].
  rewrite Hnext. cbn [fst snd]. rewrite host_logging_run. reflexivity.
Qed.

Lemma host_set_service_state_fails (start : bool) p (w : World) took :
  hd (Some 0, 0%N) (services w) = (None, took) ->
  set_service_state start p w
  = Raised OSError
      (advance (Z.of_N took)
         (with_services (tl (services w))
            (record (Log INFO (MsgRunning (systemctl_args start))) w))).
Proof.
  intros Hnext. unfold set_service_state. fold (systemctl_args start).
  hstep. unfold bind at 1, subprocess_run at 1. cbn [services record].
  rewrite Hnext. reflexivity.
Qed.

Lemma host_sleep_until_run (t : aware) p (w : World) :
  clock w <= timestamp t ->
  timestamp t - clock w <= sleep_max p ->
  sleep_until t p w = Returned tt (after_sleep t w).
Proof.
  intros Hle Hmax. unfold sleep_until. hstep. hstep.
  unfold sub_seconds. rewrite timestamp_reading.
  now rewrite host_time_sleep_run by (cbn [clock record]; lia).
Qed.

(** Past the instant, [sleep_until] fails: [time.sleep] is given a
    negative length. *)
Lemma host_sleep_until_late (t : aware) p (w : World) :
  timestamp t < clock w ->
  sleep_until t p w = Raised ValueError (record (Log INFO (MsgSleepingUntil t)) w).
Proof.
  intros Hlt. unfold sleep_until. hstep. hstep.
  unfold sub_seconds. rewrite timestamp_reading.
  now rewrite host_time_sleep_negative by (cbn [clock record]; lia).
Qed.

Lemma host_day_cycle_steps (ti : TimeInfo) p (w : World) :
  day_cycle ti p w
  = (guarded_step false (sunrise ti) ;;
     guarded_step true (sunset ti) ;;
     guarded_step false (next_1am ti)) p w.
Proof.
  unfold day_cycle, guarded_step, bind.
  destruct (now_astimezone p w) as [n1 w1|]; [| reflexivity].
  destruct (ltb n1 (sunrise ti)); [| cbn [ret]].
  - destruct (set_service_state false p w1) as [[] w2|]; [| reflexivity].
    destruct (sleep_until (sunrise ti) p w2) as [[] w3|]; [| reflexivity].
    destruct (now_astimezone p w3) as [n2 w4|]; [| reflexivity].
    destruct (ltb n2 (sunset ti)); [| reflexivity].
    destruct (set_service_state true p w4) as [[] w5|]; [| reflexivity].
    destruct (sleep_until (sunset ti) p w5) as [[] w6|]; reflexivity.
  - destruct (now_astimezone p w1) as [n2 w4|]; [| reflexivity].
    destruct (ltb n2 (sunset ti)); [| reflexivity].
    destruct (set_service_state true p w4) as [[] w5|]; [| reflexivity].
    destruct (sleep_until (sunset ti) p w5) as [[] w6|]; reflexivity.
Qed.

(** A step whose instant has passed does nothing. *)
Lemma guarded_step_skips (start : bool) (t : aware) p (w : World) :
  timestamp t <= clock w ->
  guarded_step start t p w = Returned tt w.
Proof.
  intros Hle. unfold guarded_step. hstep. rewrite ltb_reading.
  destruct (Z.ltb_spec (clock w) (timestamp t)); [lia | reflexivity].
Qed.

(** A step whose command ends by the instant sleeps until the instant. *)
Lemma guarded_step_in_time (start : bool) (t : aware) p (w : World) code took :
  clock w < timestamp t ->
  hd (Some 0, 0%N) (services w) = (Some code, took) ->
  clock w + Z.of_N took <= timestamp t ->
  timestamp t - (clock w + Z.of_N took) <= sleep_max p ->
  guarded_step start t p w
  = Returned tt (after_sleep t (after_command start code took w)).
Proof.
  intros Hlt Hnext Hend Hmax. unfold guarded_step. hstep. rewrite ltb_reading.
  destruct (Z.ltb_spec (clock w) (timestamp t)); [| lia].
  rewrite (host_bind_returned _ _ _ _ _ _ (host_set_service_state_run start p w code took Hnext)).
  apply host_sleep_until_run; cbn [after_command record advance with_services clock]; lia.
Qed.

(** A step whose command outlasts the instant raises: the guard has
    passed, the command has run, and [sleep_until] finds the instant in
    the past. *)
Lemma guarded_step_late (start : bool) (t : aware) p (w : World) code took :
  clock w < timestamp t ->
  hd (Some 0, 0%N) (services w) = (Some code, took) ->
  timestamp t < clock w + Z.of_N took ->
  guarded_step start t p w
  = Raised ValueError
      (record (Log INFO (MsgSleepingUntil t)) (after_command start code took w)).
Proof.
  intros Hlt Hnext Hend. unfold guarded_step. hstep. rewrite ltb_reading.
  destruct (Z.ltb_spec (clock w) (timestamp t)); [| lia].
  rewrite (host_bind_returned _ _ _ _ _ _ (host_set_service_state_run start p w code took Hnext)).
  apply host_sleep_until_late; cbn [after_command record advance with_services clock]; lia.
Qed.

Lemma host_commands_app (evs1 evs2 : list (Z * event)) :
  commands (evs1 ++ evs2) = commands evs1 ++ commands evs2.
Proof.
  induction evs1 as [|[t e] evs1 IH]; [reflexivity|].
  destruct e; cbn; now rewrite IH.
Qed.

Lemma host_sleeps_app (evs1 evs2 : list (Z * event)) :
  sleeps (evs1 ++ evs2) = sleeps evs1 ++ sleeps evs2.
Proof.
  induction evs1 as [|[t e] evs1 IH]; [reflexivity|].
  destruct e; cbn; now rewrite IH.
Qed.

Lemma commands_of_systemctl (start : bool) :
  String.eqb (nth 1 (systemctl_args start) "") "start" = start.
Proof. now destruct start. Qed.

(** The day cycle when the command of the first pending step outlasts
    its instant. *)
Lemma host_day_cycle_late (ti : TimeInfo) p (w : World) start t code took :
  pending ti (clock w) = Some (start, t) ->
  hd (Some 0, 0%N) (services w) = (Some code, took) ->
  timestamp t < clock w + Z.of_N took ->
  day_cycle ti p w
  = Raised ValueError
      (record (Log INFO (MsgSleepingUntil t)) (after_command start code took w)).
Proof.
  intros Hpending Hnext Hend. rewrite host_day_cycle_steps. unfold pending in Hpending.
  destruct (Z.ltb_spec (clock w) (timestamp (sunrise ti))) as [H1|H1].
  - injection Hpending as <- <-.
    now rewrite (host_bind_raised _ _ _ _ _ _ (guarded_step_late _ _ p w code took H1 Hnext Hend)).
  - rewrite (host_bind_returned _ _ _ _ _ _ (guarded_step_skips false _ p w H1)).
    destruct (Z.ltb_spec (clock w) (timestamp (sunset ti))) as [H2|H2].
    + injection Hpending as <- <-.
      now rewrite (host_bind_raised _ _ _ _ _ _ (guarded_step_late _ _ p w code took H2 Hnext Hend)).
    + rewrite (host_bind_returned _ _ _ _ _ _ (guarded_step_skips true _ p w H2)).
      destruct (Z.ltb_spec (clock w) (timestamp (next_1am ti))) as [H3|H3];
        [| discriminate].
      injection Hpending as <- <-.
      exact (guarded_step_late _ _ p w code took H3 Hnext Hend).
Qed.

Lemma host_check_ordering_run (ti : TimeInfo) p (w : World) :
  check_ordering ti p w =
  Returned tt
    (if ltb (sunrise ti) (sunset ti) && ltb (sunset ti) (next_1am ti)
     then w else record (Log ERROR (MsgUnexpectedOrdering ti)) w).
Proof.
  unfold check_ordering.
  now destruct (ltb (sunrise ti) (sunset ti) && ltb (sunset ti) (next_1am ti)).
Qed.

(** C1 on the code: the guard of a step is read before the command is
    run and the time left is read after it.  When the command of the
    first step whose instant lies ahead ends after that instant, the
    command has been given, nothing sleeps, and the day cycle ends in the
    ValueError of [time.sleep]; coming after lines 138-147 it ends the
    loop of [main]. *)
Theorem late_command_ends_the_loop
    (p : Platform) (ti : TimeInfo) (w : World)
    (start : bool) (t : aware) (code : Z) (took : N) (rest : list (option Z * N)) :
  pending ti (clock w) = Some (start, t) ->
  services w = (Some code, took) :: rest ->
  timestamp t < clock w + Z.of_N took ->
  exists w',
    day_cycle ti p w = Raised ValueError w'
    /\ commands (events_since w w') = [start]
    /\ sleeps (events_since w w') = []
    /\ clock w' = clock w + Z.of_N took
    /\ (forall location fuel w0,
          obtain_sun_info location p w0 = Returned ti w ->
          exists w'',
            main (S fuel) location p w0 = Raised ValueError w''
            /\ commands (events_since w w'') = [start]
            /\ sleeps (events_since w w'') = []
            /\ clock w'' = clock w + Z.of_N took).
Proof.
  intros Hpending Hservices Hend.
  assert (Hnext : hd (Some 0, 0%N) (services w) = (Some code, took))
    by now rewrite Hservices.
  exists (record (Log INFO (MsgSleepingUntil t)) (after_command start code took w)).
  split; [exact (host_day_cycle_late ti p w start t code took Hpending Hnext Hend) |].
  split; [| split; [| split]].
  - erewrite host_events_since_app
      by (unfold after_command, advance, with_services, record; cbn [trace clock];
          rewrite <- !app_assoc; reflexivity).
    cbn [app commands]. now rewrite commands_of_systemctl.
  - erewrite host_events_since_app
      by (unfold after_command, advance, with_services, record; cbn [trace clock];
          rewrite <- !app_assoc; reflexivity).
    reflexivity.
  - reflexivity.
  - intros location fuel w0 Hobtain.
    set (ok := ltb (sunrise ti) (sunset ti) && ltb (sunset ti) (next_1am ti)).
    set (w1 := if ok then w else record (Log ERROR (MsgUnexpectedOrdering ti)) w).
    assert (Hclock : clock w1 = clock w) by (subst w1; now destruct ok).
    assert (Hserv : services w1 = services w) by (subst w1; now destruct ok).
    assert (Htrace : exists l, trace w1 = trace w ++ l /\ commands l = [] /\ sleeps l = []).
    { subst w1. destruct ok.
      - exists []. now rewrite app_nil_r.
      - eexists. split; [reflexivity | split; reflexivity]. }
    destruct Htrace as (l & Htrace & Hcl & Hsl).
    exists (record (Log INFO (MsgSleepingUntil t)) (after_command start code took w1)).
    assert (Hiter : main_iteration location p w0
                    = Raised ValueError
                        (record (Log INFO (MsgSleepingUntil t))
                           (after_command start code took w1))).
    { unfold main_iteration. rewrite (host_bind_returned _ _ _ _ _ _ Hobtain).
      rewrite (host_bind_returned _ _ _ _ _ _ (host_check_ordering_run ti p w)).
      fold ok. fold w1.
      apply host_day_cycle_late; rewrite ?Hclock, ?Hserv; assumption. }
    assert (Hsince : events_since w
                       (record (Log INFO (MsgSleepingUntil t))
                          (after_command start code took w1))
                     = l ++ [(clock w, Log INFO (MsgRunning (systemctl_args start)));
                             (clock w, Run (systemctl_args start));
                             (clock w + Z.of_N took,
                              Log (if code =? 0 then INFO else ERROR) (MsgExited code));
                             (clock w + Z.of_N took, Log INFO (MsgSleepingUntil t))]).
    { apply host_events_since_app.
      unfold after_command, advance, with_services, record; cbn [trace clock].
      rewrite Htrace, Hclock, <- !app_assoc. reflexivity. }
    split; [| split; [| split]].
    + cbn [main]. now rewrite (host_bind_raised _ _ _ _ _ _ Hiter).
    + rewrite Hsince, host_commands_app, Hcl. cbn [app commands].
      now rewrite commands_of_systemctl.
    + rewrite Hsince, host_sleeps_app, Hsl. reflexivity.
    + cbn [record after_command advance with_services clock]. lia.
Qed.

(** An instance: London, 1 May 2024, 05:59:59; the window has its
    sunrise at 06:00:00 and [systemctl stop] takes two seconds. *)
Lemma late_command_ends_the_loop_witness :
  pending (fixed_window (ymd2ord 2024 5 1) 3600)
          (clock (world_at before_six_1_may_2024 [] [(Some 0, 2%N)]))
  = Some (false, at_hour (ymd2ord 2024 5 1) 6 3600)
  /\ timestamp (at_hour (ymd2ord 2024 5 1) 6 3600) = before_six_1_may_2024 + 1
  /\ exists w',
       day_cycle (fixed_window (ymd2ord 2024 5 1) 3600) london
         (world_at before_six_1_may_2024 [] [(Some 0, 2%N)])
       = Raised ValueError w'
       /\ commands (events_since (world_at before_six_1_may_2024 [] [(Some 0, 2%N)]) w')
          = [false]
       /\ sleeps (events_since (world_at before_six_1_may_2024 [] [(Some 0, 2%N)]) w') = []
       /\ clock w' = before_six_1_may_2024 + 2.
Proof.
  split; [reflexivity | split; [reflexivity |]].
  destruct (late_command_ends_the_loop london (fixed_window (ymd2ord 2024 5 1) 3600)
              (world_at before_six_1_may_2024 [] [(Some 0, 2%N)])
              false (at_hour (ymd2ord 2024 5 1) 6 3600) 0 2%N []
              eq_refl eq_refl ltac:(vm_compute; reflexivity))
    as (w' & Hrun & Hcommands & Hsleeps & Hclock & _).
  exists w'. split; [exact Hrun | split; [exact Hcommands | split; [exact Hsleeps | exact Hclock]]].
Defined.

(** The loop on such a morning: no connection, so after five attempts
    and ten minutes the default window is used, at 05:59:59; the stop
    before the sunrise takes two seconds, and [main] ends in ValueError
    with the service stopped and no step of the day taken. *)
Example host_main_ends_at_six :
  exists w',
    main 3 greenwich london (world_at (before_six_1_may_2024 - 600) [] [(Some 0, 2%N)])
    = Raised ValueError w'
    /\ commands (trace w') = [false]
    /\ sleeps (trace w') = [120; 120; 120; 120; 120]
    /\ clock w' = before_six_1_may_2024 + 2.
Proof. eexists. split; [vm_compute; reflexivity | repeat split]. Qed.

Lemma prompt_hd (m : Z) (runs : list (option Z * N)) :
  0 <= m -> prompt m runs ->
  exists code took, hd (Some 0, 0%N) runs = (Some code, took) /\ Z.of_N took <= m.
Proof.
  intros Hm Hprompt. destruct Hprompt as [|[[code|] took] runs [Hstart Htook] _].
  - exists 0, 0%N. split; [reflexivity | cbn; lia].
  - exists code, took. split; [reflexivity | exact Htook].
  - now destruct Hstart.
Qed.

Lemma prompt_tl (m : Z) (runs : list (option Z * N)) :
  prompt m runs -> prompt m (tl runs).
Proof. intros Hprompt. destruct Hprompt; [constructor | assumption]. Qed.

(** One step with time to spare. *)
Lemma guarded_step_prompt (start : bool) (t : aware) p (w : World) (m : Z) :
  0 <= m ->
  prompt m (services w) ->
  (clock w < timestamp t -> clock w + m <= timestamp t) ->
  timestamp t - clock w <= sleep_max p ->
  exists w' evs,
    guarded_step start t p w = Returned tt w'
    /\ trace w' = trace w ++ evs
    /\ clock w' = Z.max (clock w) (timestamp t)
    /\ prompt m (services w')
    /\ commands evs = (if clock w <? timestamp t then [start] else [])
    /\ length (sleeps evs) = length (commands evs).
Proof.
  intros Hm Hprompt Hspare Hmax.
  destruct (Z.ltb_spec (clock w) (timestamp t)) as [Hlt|Hge].
  - destruct (prompt_hd m _ Hm Hprompt) as (code & took & Hnext & Htook).
    specialize (Hspare Hlt).
    exists (after_sleep t (after_command start code took w)). eexists.
    split; [apply guarded_step_in_time; (assumption || lia) |].
    split; [unfold after_sleep, after_command, advance, with_services, record;
            cbn [trace clock]; rewrite <- !app_assoc; reflexivity |].
    split; [cbn [after_sleep after_command advance with_services record clock]; lia |].
    split; [cbn [after_sleep after_command advance with_services record services];
            now apply prompt_tl |].
    cbn [app commands sleeps length]. now rewrite commands_of_systemctl.
  - exists w, []. rewrite app_nil_r.
    split; [now apply guarded_step_skips |].
    repeat split; [lia | assumption].
Qed.

(** X8: with time to spare the day follows its three steps.  When every
    [systemctl] run still to come starts and ends within [m] seconds,
    the three instants of the window lie at least [m] seconds apart, in
    order, and the first of them that lies ahead is at least [m] seconds
    away, the day cycle returns; its commands depend on when it starts:
    stop, start, stop before the sunrise; start, stop from the sunrise
    to the sunset; stop alone from the sunset to [next_1am]; none after
    that; each command is followed by one sleep; and the day ends at
    [next_1am], or at once when that has passed. *)
Theorem day_cycle_with_time_to_spare (p : Platform) (ti : TimeInfo) (w : World) (m : Z) :
  0 < m ->
  prompt m (services w) ->
  timestamp (sunrise ti) + m <= timestamp (sunset ti) ->
  timestamp (sunset ti) + m <= timestamp (next_1am ti) ->
  match pending ti (clock w) with
  | Some (_, t) => clock w + m <= timestamp t
  | None => True
  end ->
  timestamp (next_1am ti) - clock w <= sleep_max p ->
  exists w',
    day_cycle ti p w = Returned tt w'
    /\ commands (events_since w w')
       = (if clock w <? timestamp (sunrise ti) then [false; true; false]
          else if clock w <? timestamp (sunset ti) then [true; false]
          else if clock w <? timestamp (next_1am ti) then [false]
          else [])
    /\ length (sleeps (events_since w w')) = length (commands (events_since w w'))
    /\ clock w' = Z.max (clock w) (timestamp (next_1am ti)).
Proof.
  intros Hm Hprompt Hrise Hset Hfirst Hmax.
  assert (H1 : clock w < timestamp (sunrise ti) -> clock w + m <= timestamp (sunrise ti)).
  { intros Hlt. unfold pending in Hfirst.
    destruct (Z.ltb_spec (clock w) (timestamp (sunrise ti))); [exact Hfirst | lia]. }
  assert (H2 : timestamp (sunrise ti) <= clock w -> clock w < timestamp (sunset ti) ->
               clock w + m <= timestamp (sunset ti)).
  { intros Hge Hlt. unfold pending in Hfirst.
    destruct (Z.ltb_spec (clock w) (timestamp (sunrise ti))); [lia |].
    destruct (Z.ltb_spec (clock w) (timestamp (sunset ti))); [exact Hfirst | lia]. }
  assert (H3 : timestamp (sunset ti) <= clock w -> clock w < timestamp (next_1am ti) ->
               clock w + m <= timestamp (next_1am ti)).
  { intros Hge Hlt. unfold pending in Hfirst.
    destruct (Z.ltb_spec (clock w) (timestamp (sunrise ti))); [lia |].
    destruct (Z.ltb_spec (clock w) (timestamp (sunset ti))); [lia |].
    destruct (Z.ltb_spec (clock w) (timestamp (next_1am ti))); [exact Hfirst | lia]. }
  clear Hfirst.
  destruct (guarded_step_prompt false (sunrise ti) p w m)
    as (w1 & e1 & Hrun1 & Ht1 & Hc1 & Hp1 & Hcm1 & Hsl1); try (assumption || lia).
  destruct (guarded_step_prompt true (sunset ti) p w1 m)
    as (w2 & e2 & Hrun2 & Ht2 & Hc2 & Hp2 & Hcm2 & Hsl2); try (assumption || lia).
  destruct (guarded_step_prompt false (next_1am ti) p w2 m)
    as (w3 & e3 & Hrun3 & Ht3 & Hc3 & Hp3 & Hcm3 & Hsl3); try (assumption || lia).
  exists w3.
  split.
  { rewrite host_day_cycle_steps.
    rewrite (host_bind_returned _ _ _ _ _ _ Hrun1).
    now rewrite (host_bind_returned _ _ _ _ _ _ Hrun2). }
  assert (Hsince : events_since w w3 = e1 ++ e2 ++ e3)
    by (apply host_events_since_app; now rewrite Ht3, Ht2, Ht1, <- !app_assoc).
  rewrite Hsince, !host_commands_app, !host_sleeps_app, !length_app.
  rewrite Hsl1, Hsl2, Hsl3, Hcm1, Hcm2, Hcm3, Hc2, Hc1.
  split; [| split; [reflexivity | lia]].
  repeat match goal with
         | |- context [?a <? ?b] => destruct (Z.ltb_spec a b)
         end; solve [reflexivity | lia].
Qed.

(** An instance: London, noon on 1 May 2024, the default window of the
    day, [systemctl] taking up to five seconds. *)
Lemma day_cycle_with_time_to_spare_witness :
  exists w',
    day_cycle (fixed_window (ymd2ord 2024 5 1) 3600) london
      (world_at noon_1_may [] [(Some 0, 5%N); (Some 1, 3%N)])
    = Returned tt w'
    /\ commands (events_since (world_at noon_1_may [] [(Some 0, 5%N); (Some 1, 3%N)]) w')
       = [true; false]
    /\ clock w' = timestamp (at_hour (ymd2ord 2024 5 2) 1 3600).
Proof.
  destruct (day_cycle_with_time_to_spare london (fixed_window (ymd2ord 2024 5 1) 3600)
              (world_at noon_1_may [] [(Some 0, 5%N); (Some 1, 3%N)]) 5)
    as (w' & Hrun & Hcommands & _ & Hclock).
  - lia.
  - repeat constructor; cbn; (discriminate || lia).
  - vm_compute. discriminate.
  - vm_compute. discriminate.
  - vm_compute. discriminate.
  - vm_compute. discriminate.
  - exists w'. split; [exact Hrun | split; [exact Hcommands | exact Hclock]].
Defined.

Lemma guarded_step_unstartable (start : bool) (t : aware) p (w : World) took :
  clock w < timestamp t ->
  hd (Some 0, 0%N) (services w) = (None, took) ->
  guarded_step start t p w
  = Raised OSError
      (advance (Z.of_N took)
         (with_services (tl (services w))
            (record (Log INFO (MsgRunning (systemctl_args start))) w))).
Proof.
  intros Hlt Hnext. unfold guarded_step. hstep. rewrite ltb_reading.
  destruct (Z.ltb_spec (clock w) (timestamp t)); [| lia].
  now rewrite (host_bind_raised _ _ _ _ _ _ (host_set_service_state_fails start p w took Hnext)).
Qed.

(** X7: nothing catches what [subprocess.run] raises.  When [systemctl]
    cannot be started for the first step whose instant lies ahead, the
    day cycle ends in that OSError after the line that announces the
    command: no exit code is logged, nothing sleeps, no later step is
    tried. *)
Theorem unstartable_command_ends_the_day
    (p : Platform) (ti : TimeInfo) (w : World)
    (start : bool) (t : aware) (took : N) (rest : list (option Z * N)) :
  pending ti (clock w) = Some (start, t) ->
  services w = (None, took) :: rest ->
  exists w',
    day_cycle ti p w = Raised OSError w'
    /\ events_since w w' = [(clock w, Log INFO (MsgRunning (systemctl_args start)))]
    /\ services w' = rest
    /\ clock w' = clock w + Z.of_N took.
Proof.
  intros Hpending Hservices.
  assert (Hnext : hd (Some 0, 0%N) (services w) = (None, took)) by now rewrite Hservices.
  exists (advance (Z.of_N took)
            (with_services (tl (services w))
               (record (Log INFO (MsgRunning (systemctl_args start))) w))).
  split; [| split; [| split]].
  - rewrite host_day_cycle_steps. unfold pending in Hpending.
    destruct (Z.ltb_spec (clock w) (timestamp (sunrise ti))) as [H1|H1].
    + injection Hpending as <- <-.
      now rewrite (host_bind_raised _ _ _ _ _ _ (guarded_step_unstartable _ _ p w took H1 Hnext)).
    + rewrite (host_bind_returned _ _ _ _ _ _ (guarded_step_skips false _ p w H1)).
      destruct (Z.ltb_spec (clock w) (timestamp (sunset ti))) as [H2|H2].
      * injection Hpending as <- <-.
        now rewrite (host_bind_raised _ _ _ _ _ _
                       (guarded_step_unstartable _ _ p w took H2 Hnext)).
      * rewrite (host_bind_returned _ _ _ _ _ _ (guarded_step_skips true _ p w H2)).
        destruct (Z.ltb_spec (clock w) (timestamp (next_1am ti))) as [H3|H3];
          [| discriminate].
        injection Hpending as <- <-.
        exact (guarded_step_unstartable _ _ p w took H3 Hnext).
  - now apply host_events_since_app.
  - cbn [advance with_services services]. now rewrite Hservices.
  - reflexivity.
Qed.

(** An instance: London, noon on 1 May 2024; [systemctl] is not there. *)
Lemma unstartable_command_ends_the_day_witness :
  exists w',
    day_cycle (fixed_window (ymd2ord 2024 5 1) 3600) london
      (world_at noon_1_may [] [(None, 0%N)])
    = Raised OSError w'
    /\ events_since (world_at noon_1_may [] [(None, 0%N)]) w'
       = [(noon_1_may, Log INFO (MsgRunning (systemctl_args true)))]
    /\ commands (trace w') = [].
Proof.
  destruct (unstartable_command_ends_the_day london (fixed_window (ymd2ord 2024 5 1) 3600)
              (world_at noon_1_may [] [(None, 0%N)]) true
              (at_hour (ymd2ord 2024 5 1) 21 3600) 0%N [] eq_refl eq_refl)
    as (w' & Hrun & Hevents & _ & _).
  exists w'. split; [exact Hrun | split; [exact Hevents |]].
  unfold events_since in Hevents. cbn [world_at trace length skipn] in Hevents.
  now rewrite Hevents.
Defined.
